(** * MarkAI: conversation persistence, context assembly and prompt building

    A shallow embedding of
      - [src/markai/memory/conversation_manager.py] (class ConversationManager),
      - [src/markai/memory/context_manager.py]      (class ContextManager),
      - [src/markai/core/ai_engine.py]              (MarkAICore._build_prompt),
    followed by the properties of the conversation store, the context
    assembler, the working-memory cache and the prompt builder.

    Conventions of the embedding.
      - A Python [str] is a [string]; [len] is [String.length] (one character
        per code point).
      - A Python [int] is a [Z]; a Python [float] is a binary64 [float].
      - A [dict] used as a map is a [gmap]; SQL tables are lists of rows in
        rowid order.
      - Every read of a clock is an explicit argument [now], an integer on
        the scale of that clock counted from 1970-01-01 00:00:00: seconds
        for SQL [CURRENT_TIMESTAMP] and [datetime('now')], microseconds for
        Python's [datetime.now()].  Stored timestamps are on the scale of the
        clock that stamped them.  Every [uuid.uuid4()] is an explicit
        argument [uuid4].
      - A method that can raise returns an [outcome]; a method that mutates
        the store or [self] also returns the new store or object. *)

From Stdlib Require Import ZArith Lia Ascii.
From Stdlib Require PrimFloat Uint63.
From Stdlib Require Import Sorting.Sorted.
From stdpp Require Import gmap strings list.
Import (notations) PrimFloat.

Abbreviation float := PrimFloat.float.

#[local] Set Warnings "-register-all".

(* ===================================================================== *)
(** * Python values, numbers and exceptions                               *)
(* ===================================================================== *)

(** The values that travel through [Any]-typed slots (message metadata,
    working-memory payloads, user preferences). *)
Inductive pyobj : Type :=
| PNone
| PBool (b : bool)
| PInt (z : Z)
| PFloat (f : float)
| PStr (s : string)
| PList (l : list pyobj)
| PDict (d : list (string * pyobj)).

(** Python truth value, as tested by [if x:] and [x or y]. *)
Definition truthy (o : pyobj) : bool :=
  match o with
  | PNone => false
  | PBool b => b
  | PInt z => negb (z =? 0)%Z
  | PFloat f => negb (PrimFloat.eqb f PrimFloat.zero)
  | PStr s => negb (String.eqb s "")
  | PList l => match l with [] => false | _ => true end
  | PDict d => match d with [] => false | _ => true end
  end.

(** [x or y] on objects. *)
Definition py_or (x y : pyobj) : pyobj := if truthy x then x else y.

(** [int -> float] conversion, as done by [float * int] and by SQL [AVG]:
    rounded to the nearest binary64 value, for integers below 2^63 in
    absolute value. *)
Definition float_of_Z (z : Z) : float :=
  if (z <? 0)%Z
  then PrimFloat.opp (PrimFloat.of_uint63 (Uint63.of_Z (- z)))
  else PrimFloat.of_uint63 (Uint63.of_Z z).

(** A number in a result dictionary. *)
Inductive number : Type :=
| NInt (z : Z)
| NFloat (f : float).

(** [x or 0] where [x] is a nullable SQL number. *)
Definition or_zero (x : option number) : number :=
  match x with
  | None => NInt 0
  | Some (NInt z) => NInt z
  | Some (NFloat f) => if PrimFloat.eqb f PrimFloat.zero then NInt 0 else NFloat f
  end.

(** The exceptions the persistence layer can see. *)
Inductive exn : Type :=
| OperationalError   (* sqlite3: the database cannot be opened, read or written,
                        or a statement fails while it runs *)
| IntegrityError     (* sqlite3: a constraint failed, or a datatype mismatch *)
| OverflowError.     (* Python: an [int] bound to a statement does not fit
                        an SQLite INTEGER *)

Inductive outcome (A : Type) : Type :=
| Return (a : A)
| Raise (e : exn).
Arguments Return {A} a.
Arguments Raise {A} e.

(** ["sep".join(parts)] *)
Fixpoint join (sep : string) (parts : list string) : string :=
  match parts with
  | [] => ""
  | [p] => p
  | p :: rest => p +:+ sep +:+ join sep rest
  end.

Definition newline : string := String (Ascii.ascii_of_nat 10) "".

(* ===================================================================== *)
(** * The SQLite store                                                    *)
(* ===================================================================== *)

Module Sqlite.

(** Table [conversations]. *)
Record ConversationRow : Type := {
  c_id : string;
  c_user_id : string;
  c_title : string;
  c_created_at : Z;
  c_updated_at : Z;
  c_metadata : pyobj
}.

(** Table [messages].  The [metadata] column holds [json.dumps] of a
    dictionary and is read back with [json.loads]; the row carries the
    dictionary itself. *)
Record MessageRow : Type := {
  m_id : string;
  m_conversation_id : string;
  m_role : string;
  m_content : string;
  m_timestamp : Z;
  m_metadata : pyobj;
  m_tokens_used : option Z;
  m_processing_time : option float;
  m_confidence : option float
}.

(** The database file: both tables, rows in rowid (insertion) order. *)
Record Db : Type := {
  conversations : list ConversationRow;
  messages : list MessageRow
}.

Definition empty_db : Db := {| conversations := []; messages := [] |}.

(** Whether the persistent store answers ([Healthy]) or its first statement
    fails with an I/O error ([Failing]: unreadable file, locked database,
    full disk). *)
Inductive storage : Type := Healthy | Failing.

(** Statements run inside a connection on a working copy of the database;
    the copy replaces the file at [conn.commit()] and is dropped when an
    exception leaves the method first. *)
Definition Tx (A : Type) : Type := Db -> outcome (A * Db).

Definition tx_ret {A} (a : A) : Tx A := fun db => Return (a, db).

Definition tx_bind {A B} (m : Tx A) (k : A -> Tx B) : Tx B :=
  fun db =>
    match m db with
    | Return (a, db') => k a db'
    | Raise e => Raise e
    end.

Declare Scope tx_scope.
Delimit Scope tx_scope with tx.
Notation "x <- m ;; k" := (tx_bind m (fun x => k))
  (at level 100, m at next level, right associativity) : tx_scope.
Notation "m ;; k" := (tx_bind m (fun _ => k))
  (at level 100, right associativity) : tx_scope.

(** [sqlite3.connect(self.db_path)] followed by [conn.cursor()]. *)
Definition connect (io : storage) : Tx unit :=
  fun db =>
    match io with
    | Healthy => Return (tt, db)
    | Failing => Raise OperationalError
    end.

(** [PRAGMA foreign_keys]: off in SQLite unless a connection switches it
    on, and no connection of the source does.  The [FOREIGN KEY] clause of
    table [messages] is therefore declared but not enforced. *)
Definition pragma_foreign_keys : bool := false.

Definition conversation_exists (cid : string) (db : Db) : bool :=
  existsb (fun c => String.eqb (c_id c) cid) (conversations db).

Definition message_exists (mid : string) (db : Db) : bool :=
  existsb (fun m => String.eqb (m_id m) mid) (messages db).

(** [INSERT INTO messages (...) VALUES (...)], for a row whose
    [tokens_used] fits an SQLite INTEGER. *)
Definition insert_message (r : MessageRow) : Tx unit :=
  fun db =>
    if message_exists (m_id r) db then Raise IntegrityError
    else if pragma_foreign_keys && negb (conversation_exists (m_conversation_id r) db)
    then Raise IntegrityError
    else Return (tt, {| conversations := conversations db;
                        messages := messages db ++ [r] |}).

Definition set_updated_at (now : Z) (c : ConversationRow) : ConversationRow :=
  {| c_id := c_id c; c_user_id := c_user_id c; c_title := c_title c;
     c_created_at := c_created_at c; c_updated_at := now;
     c_metadata := c_metadata c |}.

(** [UPDATE conversations SET updated_at = CURRENT_TIMESTAMP WHERE id = ?] *)
Definition touch_conversation (cid : string) (now : Z) : Tx unit :=
  fun db =>
    Return (tt, {| conversations :=
                     map (fun c => if String.eqb (c_id c) cid
                                   then set_updated_at now c else c)
                         (conversations db);
                   messages := messages db |}).

(** [DELETE FROM messages WHERE conversation_id = ?] *)
Definition delete_messages_of (cid : string) : Tx unit :=
  fun db =>
    Return (tt, {| conversations := conversations db;
                   messages := filter (fun m => m_conversation_id m ≠ cid)
                                      (messages db) |}).

(** [DELETE FROM conversations WHERE id = ?] *)
Definition delete_conversation_row (cid : string) : Tx unit :=
  fun db =>
    Return (tt, {| conversations := filter (fun c => c_id c ≠ cid)
                                           (conversations db);
                   messages := messages db |}).

(** [ORDER BY]: a stable insertion sort of the scanned rows, so rows with
    equal keys stay in rowid order. *)
Fixpoint insert_by {A} (le : A -> A -> bool) (x : A) (l : list A) : list A :=
  match l with
  | [] => [x]
  | y :: l' => if le x y then x :: y :: l' else y :: insert_by le x l'
  end.

Definition order_by {A} (le : A -> A -> bool) (l : list A) : list A :=
  foldr (insert_by le) [] l.

Definition timestamp_asc (a b : MessageRow) : bool :=
  (m_timestamp a <=? m_timestamp b)%Z.

Definition timestamp_desc (a b : MessageRow) : bool :=
  (m_timestamp b <=? m_timestamp a)%Z.

(** The range of an SQLite INTEGER: 64 bits, signed. *)
Definition int64 (n : Z) : bool :=
  (-9223372036854775808 <=? n)%Z && (n <=? 9223372036854775807)%Z.

(** [LIMIT n]: a negative [n] means no limit. *)
Definition sql_limit {A} (n : Z) (l : list A) : list A :=
  if (n <? 0)%Z then l else take (Z.to_nat n) l.

(** An optional [LIMIT n] written into the text of the statement by an
    f-string.  A literal outside the 64-bit range is not an integer to
    SQLite, which refuses the statement with "datatype mismatch"
    ([sqlite3.IntegrityError]), whether or not a row matches. *)
Definition limit_clause {A} (limit : option Z) (rows : list A) : outcome (list A) :=
  match limit with
  | None => Return rows
  | Some n => if int64 n then Return (sql_limit n rows) else Raise IntegrityError
  end.

(** ASCII case folding of [LIKE]. *)
Definition lower (c : Ascii.ascii) : Ascii.ascii :=
  let n := Ascii.nat_of_ascii c in
  if (65 <=? n)%nat && (n <=? 90)%nat then Ascii.ascii_of_nat (n + 32) else c.

(** The matcher of [LIKE]: [%] matches any run of characters, [_] matches
    one character, letters match without regard to ASCII case. *)
Fixpoint pattern_compare (pattern text : string) : bool :=
  match pattern with
  | EmptyString => match text with EmptyString => true | _ => false end
  | String p pattern' =>
      if Ascii.eqb p "%"%char then
        (fix any_run (t : string) : bool :=
           pattern_compare pattern' t
           || match t with
              | EmptyString => false
              | String _ t' => any_run t'
              end) text
      else
        match text with
        | EmptyString => false
        | String c text' =>
            (Ascii.eqb p "_"%char || Ascii.eqb (lower p) (lower c))
            && pattern_compare pattern' text'
        end
  end.

(** A string as the matcher reads it: up to its first NUL character. *)
Fixpoint c_string (s : string) : string :=
  match s with
  | EmptyString => EmptyString
  | String c s' =>
      if Ascii.eqb c Ascii.zero then EmptyString else String c (c_string s')
  end.

(** [text LIKE pattern]: the matcher reads both operands as C strings. *)
Definition like (pattern text : string) : bool :=
  pattern_compare (c_string pattern) (c_string text).

(** The number of bytes of a string in UTF-8, for code points below 256. *)
Fixpoint utf8_length (s : string) : Z :=
  match s with
  | EmptyString => 0
  | String c s' =>
      ((if (Ascii.nat_of_ascii c <? 128)%nat then 1 else 2) + utf8_length s')%Z
  end.

(** [SQLITE_MAX_LIKE_PATTERN_LENGTH]: a longer pattern makes [LIKE] fail
    with "LIKE or GLOB pattern too complex" when it is evaluated. *)
Definition max_like_pattern_length : Z := 50000.

(** [SELECT ... FROM messages WHERE conversation_id = ? ORDER BY timestamp ASC]
    with an optional [LIMIT]. *)
Definition select_history (cid : string) (limit : option Z) : Tx (list MessageRow) :=
  fun db =>
    let rows := order_by timestamp_asc
                  (filter (fun m => m_conversation_id m = cid) (messages db)) in
    match limit_clause limit rows with
    | Return rows => Return (rows, db)
    | Raise e => Raise e
    end.

(** The rows of [messages m JOIN conversations c ON m.conversation_id = c.id
    WHERE c.user_id = ?] in the order SQLite scans them: the conversations
    of the user through the index on [user_id], and for each of them its
    messages through the index on [conversation_id]. *)
Definition join_user_messages (user_id : string) (db : Db) : list MessageRow :=
  flat_map (fun c => filter (fun m => m_conversation_id m = c_id c) (messages db))
           (filter (fun c => c_user_id c = user_id) (conversations db)).

(** [SELECT ... FROM messages m JOIN conversations c ON m.conversation_id = c.id
     WHERE c.user_id = ? AND m.content LIKE ? ORDER BY m.timestamp DESC LIMIT ?]
    with its three parameters bound.  Binding a [limit] outside the 64-bit
    range raises [OverflowError] before the statement runs; a pattern of
    more than 50000 bytes makes the statement fail at the first joined row
    on which [LIKE] is evaluated. *)
Definition select_search (user_id pattern : string) (limit : Z) : Tx (list MessageRow) :=
  fun db =>
    if negb (int64 limit) then Raise OverflowError
    else
      let joined := join_user_messages user_id db in
      if (max_like_pattern_length <? utf8_length pattern)%Z
         && negb (length joined =? 0)%nat
      then Raise OperationalError
      else
        let rows := order_by timestamp_desc
                      (filter (fun m => like pattern (m_content m) = true) joined) in
        Return (sql_limit limit rows, db).

(** Aggregates over the non-NULL values of a column; [None] is SQL NULL. *)
Definition non_null {A} (l : list (option A)) : list A := omap id l.

(** Integer addition as [SUM] does it: [None] as soon as a partial sum
    leaves the 64-bit range. *)
Fixpoint checked_sum (acc : Z) (v : list Z) : option Z :=
  match v with
  | [] => Some acc
  | x :: v' =>
      if int64 (acc + x) then checked_sum (acc + x)%Z v' else None
  end.

(** [SUM] over an INTEGER column: NULL over no value, and the statement
    fails with "integer overflow" when a partial sum overflows. *)
Definition sum_int (l : list (option Z)) : outcome (option Z) :=
  match non_null l with
  | [] => Return None
  | v => match checked_sum 0 v with
         | Some total => Return (Some total)
         | None => Raise OperationalError
         end
  end.

Definition sum_real (l : list (option float)) : option float :=
  match non_null l with
  | [] => None
  | v => Some (foldl PrimFloat.add PrimFloat.zero v)
  end.

(** [AVG] over an INTEGER column: the values are converted to binary64
    and added one by one in scan order (plain summation, as SQLite 3.40
    does it); the sum is divided by their number. *)
Definition avg_int (l : list (option Z)) : option float :=
  match non_null l with
  | [] => None
  | v => Some (PrimFloat.div
                 (foldl (fun acc x => PrimFloat.add acc (float_of_Z x))
                        PrimFloat.zero v)
                 (float_of_Z (Z.of_nat (length v))))
  end.

Definition avg_real (l : list (option float)) : option float :=
  match non_null l with
  | [] => None
  | v => Some (PrimFloat.div (foldl PrimFloat.add PrimFloat.zero v)
                             (float_of_Z (Z.of_nat (length v))))
  end.

(** The one row of
    [SELECT COUNT( * ), SUM(tokens_used), AVG(tokens_used),
            SUM(processing_time), AVG(confidence)
     FROM messages WHERE conversation_id = ?]. *)
Record StatsRow : Type := {
  s_message_count : Z;
  s_total_tokens : option Z;
  s_avg_tokens : option float;
  s_total_processing_time : option float;
  s_avg_confidence : option float
}.

Definition select_stats (cid : string) : Tx StatsRow :=
  fun db =>
    let rows := filter (fun m => m_conversation_id m = cid) (messages db) in
    match sum_int (map m_tokens_used rows) with
    | Raise e => Raise e
    | Return total_tokens =>
        Return ({| s_message_count := Z.of_nat (length rows);
                   s_total_tokens := total_tokens;
                   s_avg_tokens := avg_int (map m_tokens_used rows);
                   s_total_processing_time := sum_real (map m_processing_time rows);
                   s_avg_confidence := avg_real (map m_confidence rows) |}, db)
    end.

(** 0000-01-01 00:00:00, the first instant that SQLite writes as
    [YYYY-MM-DD HH:MM:SS] with a four-digit year. *)
Definition year_zero : Z := -62167219200.

(** [datetime('now', '-N days')] with [N] formatted by ['-{} days'.format(days)].
    For a negative [days] the modifier reads ['--N days'], which SQLite
    does not recognise: the result is NULL.  A cutoff before year 0 is NULL
    or a text with a minus sign, below every stored timestamp; both are
    [None] here. *)
Definition datetime_days_ago (days now : Z) : option Z :=
  if (days <? 0)%Z || (now - days * 86400 <? year_zero)%Z
  then None
  else Some (now - days * 86400)%Z.

(** [SELECT id FROM conversations WHERE updated_at < datetime('now', '-N days')];
    no row compares below NULL. *)
Definition select_old_conversations (days now : Z) : Tx (list string) :=
  fun db =>
    match datetime_days_ago days now with
    | None => Return ([], db)
    | Some cutoff =>
        Return (map c_id
                  (List.filter (fun c => (c_updated_at c <? cutoff)%Z)
                               (conversations db)), db)
    end.

(** [INSERT INTO conversations (id, user_id, title, metadata) VALUES (?, ?, ?, ?)];
    [id] is the PRIMARY KEY. *)
Definition insert_conversation (r : ConversationRow) : Tx unit :=
fun db =>
if conversation_exists (c_id r) db then Raise IntegrityError
else Return (tt, {| conversations := conversations db ++ [r];
                    messages := messages db |}).

Definition updated_desc (a b : ConversationRow) : bool :=
(c_updated_at b <=? c_updated_at a)%Z.

(** [SELECT id, title, created_at, updated_at, metadata FROM conversations
     WHERE user_id = ? ORDER BY updated_at DESC] with an optional [LIMIT]. *)
Definition select_user_conversations (user_id : string) (limit : option Z)
  : Tx (list ConversationRow) :=
fun db =>
let rows := order_by updated_desc
              (filter (fun c => c_user_id c = user_id) (conversations db)) in
match limit_clause limit rows with
| Return rows => Return (rows, db)
| Raise e => Raise e
end.

End Sqlite.

(* ===================================================================== *)
(** * conversation_manager.py                                             *)
(* ===================================================================== *)

Module ConversationManager.
Import Sqlite.
Local Open Scope tx_scope.

(** The dataclass [ConversationMessage]; its fields carry the prefix
    [msg_] here. *)
Record ConversationMessage : Type := {
  msg_id : string;
  msg_conversation_id : string;
  msg_role : string;
  msg_content : string;
  msg_timestamp : Z;
  msg_metadata : pyobj;
  msg_tokens_used : option Z;
  msg_processing_time : option float;
  msg_confidence : option float
}.

(** The [ConversationMessage(...)] built from a fetched row. *)
Definition message_of_row (include_metadata : bool) (row : MessageRow)
  : ConversationMessage :=
  {| msg_id := m_id row;
     msg_conversation_id := m_conversation_id row;
     msg_role := m_role row;
     msg_content := m_content row;
     msg_timestamp := m_timestamp row;
     msg_metadata := if include_metadata then m_metadata row else PDict [];
     msg_tokens_used := m_tokens_used row;
     msg_processing_time := m_processing_time row;
     msg_confidence := m_confidence row |}.

(** [add_message]: one INSERT and one UPDATE in a transaction; any
    exception is logged and re-raised. *)
Definition add_message (io : storage) (db : Db) (uuid4 : string) (now : Z)
    (conversation_id role content : string) (metadata : option pyobj)
    (tokens_used : option Z) (processing_time confidence : option float)
  : outcome string * Db :=
  let message_id := uuid4 in
  let message_metadata :=
    match metadata with
    | Some d => py_or d (PDict [])
    | None => PDict []
    end in
  match (connect io ;;
         insert_message {| m_id := message_id;
                           m_conversation_id := conversation_id;
                           m_role := role;
                           m_content := content;
                           m_timestamp := now;
                           m_metadata := message_metadata;
                           m_tokens_used := tokens_used;
                           m_processing_time := processing_time;
                           m_confidence := confidence |} ;;
         touch_conversation conversation_id now ;;
         tx_ret message_id) db with
  | Return (r, db') => (Return r, db')
  | Raise e => (Raise e, db)
  end.

(** [get_conversation_history]: [if limit:] adds the LIMIT clause, so
    [None] and [0] both mean no limit; any exception is logged and
    re-raised. *)
Definition get_conversation_history (io : storage) (db : Db)
    (conversation_id : string) (limit : option Z) (include_metadata : bool)
  : outcome (list ConversationMessage) :=
  let limit_clause :=
    match limit with
    | Some n => if (n =? 0)%Z then None else Some n
    | None => None
    end in
  match (connect io ;;
         rows <- select_history conversation_id limit_clause ;;
         tx_ret (map (message_of_row include_metadata) rows)) db with
  | Return (r, _) => Return r
  | Raise e => Raise e
  end.

(** [delete_conversation]: [True] after the commit, [False] from the
    exception handler. *)
Definition delete_conversation (io : storage) (db : Db) (conversation_id : string)
  : bool * Db :=
  match (connect io ;;
         delete_messages_of conversation_id ;;
         delete_conversation_row conversation_id) db with
  | Return (_, db') => (true, db')
  | Raise _ => (false, db)
  end.

(** [search_messages]: the pattern is [f"%{query}%"]; the exception
    handler logs whatever is raised and returns [[]]. *)
Definition search_messages (io : storage) (db : Db)
    (user_id query : string) (limit : Z)
  : list ConversationMessage :=
  match (connect io ;;
         rows <- select_search user_id ("%" +:+ query +:+ "%") limit ;;
         tx_ret (map (message_of_row true) rows)) db with
  | Return (r, _) => r
  | Raise _ => []
  end.

(** [get_conversation_stats]: the dictionary of the five aggregates, each
    through [or 0]; the exception handler logs and returns [{}]. *)
Definition get_conversation_stats (io : storage) (db : Db) (conversation_id : string)
  : gmap string number :=
  match (connect io ;; select_stats conversation_id) db with
  | Return (row, _) =>
      <["message_count" := or_zero (Some (NInt (s_message_count row)))]>
      (<["total_tokens" := or_zero (NInt <$> s_total_tokens row)]>
      (<["avg_tokens" := or_zero (NFloat <$> s_avg_tokens row)]>
      (<["total_processing_time" := or_zero (NFloat <$> s_total_processing_time row)]>
      (<["avg_confidence" := or_zero (NFloat <$> s_avg_confidence row)]> ∅))))
  | Raise _ => ∅
  end.

(** The loop [for conv_id in old_conversation_ids: DELETE ...; DELETE ...]. *)
Fixpoint delete_each (ids : list string) : Tx unit :=
  match ids with
  | [] => tx_ret tt
  | conv_id :: rest =>
      delete_messages_of conv_id ;;
      delete_conversation_row conv_id ;;
      delete_each rest
  end.

(** [cleanup_old_conversations]: the number of conversations deleted; the
    exception handler logs and returns [0]. *)
Definition cleanup_old_conversations (io : storage) (db : Db) (days now : Z)
  : Z * Db :=
  match (connect io ;;
         old_conversation_ids <- select_old_conversations days now ;;
         delete_each old_conversation_ids ;;
         tx_ret (Z.of_nat (length old_conversation_ids))) db with
  | Return (n, db') => (n, db')
  | Raise _ => (0%Z, db)
  end.

(** The dictionary built by [get_user_conversations] for one row. *)
Record ConversationSummary : Type := {
  sum_id : string;
  sum_title : string;
  sum_created_at : Z;
  sum_updated_at : Z;
  sum_metadata : pyobj
}.

Definition summary_of_row (row : ConversationRow) : ConversationSummary :=
{| sum_id := c_id row;
   sum_title := c_title row;
   sum_created_at := c_created_at row;
   sum_updated_at := c_updated_at row;
   sum_metadata := c_metadata row |}.

(** [get_user_conversations]: [if limit:] adds the LIMIT clause; any
    exception is logged and re-raised. *)
Definition get_user_conversations (io : storage) (db : Db)
    (user_id : string) (limit : option Z)
  : outcome (list ConversationSummary) :=
let limit_clause :=
  match limit with
  | Some n => if (n =? 0)%Z then None else Some n
  | None => None
  end in
match (connect io ;;
       rows <- select_user_conversations user_id limit_clause ;;
       tx_ret (map summary_of_row rows)) db with
| Return (r, _) => Return r
| Raise e => Raise e
end.

Section CreateConversation.

(** [datetime.now().strftime('%Y-%m-%d %H:%M')] of the standard library, as
    a function of the clock reading. *)
Variable strftime_minute : Z -> string.

(** [create_conversation]: the title is [title or f"Conversation {...}"],
    so [None] and [""] both take the default; [created_at] and [updated_at]
    take their column default [CURRENT_TIMESTAMP]; any exception is logged
    and re-raised. *)
Definition create_conversation (io : storage) (db : Db) (uuid4 : string)
    (now : Z) (user_id : string) (title : option string)
  : outcome string * Db :=
let conversation_id := uuid4 in
let title :=
  match title with
  | Some (String c t) => String c t
  | _ => "Conversation " +:+ strftime_minute now
  end in
match (connect io ;;
       insert_conversation {| c_id := conversation_id;
                              c_user_id := user_id;
                              c_title := title;
                              c_created_at := now;
                              c_updated_at := now;
                              c_metadata := PDict [] |} ;;
       tx_ret conversation_id) db with
| Return (r, db') => (Return r, db')
| Raise e => (Raise e, db)
end.

End CreateConversation.

End ConversationManager.

(* ===================================================================== *)
(** * Python string methods                                               *)
(* ===================================================================== *)

(** The methods of [str] that the context manager calls, on strings whose
    characters are the code points below 256. *)
Module PyStr.

(** [c.isspace()]: the characters that [strip()] removes. *)
Definition isspace (c : ascii) : bool :=
let n := nat_of_ascii c in
(Nat.leb 9 n && Nat.leb n 13) || (Nat.leb 28 n && Nat.leb n 32)
|| Nat.eqb n 133 || Nat.eqb n 160.

(** [c.lower()]: A-Z and the accented capitals 0xC0-0xDE (not the
    multiplication sign 0xD7) move up by 32. *)
Definition lower_char (c : ascii) : ascii :=
let n := nat_of_ascii c in
if (Nat.leb 65 n && Nat.leb n 90)
   || (Nat.leb 192 n && Nat.leb n 222 && negb (Nat.eqb n 215))
then ascii_of_nat (n + 32) else c.

(** [s.lower()] *)
Fixpoint lower (s : string) : string :=
match s with
| EmptyString => EmptyString
| String c s' => String (lower_char c) (lower s')
end.

(** [s.lstrip()], [s.rstrip()] and [s.strip()] *)
Fixpoint lstrip (s : string) : string :=
match s with
| EmptyString => EmptyString
| String c s' => if isspace c then lstrip s' else s
end.

Fixpoint rstrip (s : string) : string :=
match s with
| EmptyString => EmptyString
| String c s' =>
    match rstrip s' with
    | EmptyString => if isspace c then EmptyString else String c EmptyString
    | r => String c r
    end
end.

Definition strip (s : string) : string := rstrip (lstrip s).

(** [needle in hay] *)
Fixpoint contains (needle hay : string) : bool :=
String.prefix needle hay
|| match hay with
   | EmptyString => false
   | String _ hay' => contains needle hay'
   end.

(** [text.split('. ')] as its first piece and the pieces after it: the
    text is cut at every occurrence of a full stop followed by a space,
    scanning from the left. *)
Fixpoint split_dot_space (s : string) : string * list string :=
match s with
| EmptyString => (EmptyString, [])
| String c rest =>
    match rest with
    | String d rest' =>
        if Ascii.eqb c "." && Ascii.eqb d " "
        then let '(p, ps) := split_dot_space rest' in (EmptyString, p :: ps)
        else let '(p, ps) := split_dot_space rest in (String c p, ps)
    | EmptyString => (String c EmptyString, [])
    end
end.

Definition split_sentences (text : string) : list string :=
let '(p, ps) := split_dot_space text in p :: ps.

(** [s.split(sep)] for a separator of one character, as its first piece and
    the pieces after it. *)
Fixpoint split_at (sep : ascii) (s : string) : string * list string :=
match s with
| EmptyString => (EmptyString, [])
| String c rest =>
    let '(p, ps) := split_at sep rest in
    if Ascii.eqb c sep then (EmptyString, p :: ps) else (String c p, ps)
end.

End PyStr.

(* ===================================================================== *)
(** * context_manager.py                                                  *)
(* ===================================================================== *)

Module ContextManager.
Import Sqlite ConversationManager.

(** An entry of [self.working_memory[conversation_id]]. *)
Record MemoryItem : Type := {
  value : pyobj;
  timestamp : Z;
  importance : float;
  access_count : Z
}.

(** An entry of [self.context_cache]. *)
Record CachedContext : Type := {
  context : string;
  cached_at : Z;
  token_count : Z
}.

(** The attributes of a [ContextManager] object. *)
Record t : Type := {
  max_context_length : Z;
  context_window_overlap : Z;
  memory_decay_rate : float;
  short_term_memory : gmap string pyobj;
  working_memory : gmap string (gmap string MemoryItem);
  context_cache : gmap string CachedContext
}.

Definition set_working_memory (self : t) (wm : gmap string (gmap string MemoryItem)) : t :=
  {| max_context_length := max_context_length self;
     context_window_overlap := context_window_overlap self;
     memory_decay_rate := memory_decay_rate self;
     short_term_memory := short_term_memory self;
     working_memory := wm;
     context_cache := context_cache self |}.

Definition set_context_cache (self : t) (cache : gmap string CachedContext) : t :=
  {| max_context_length := max_context_length self;
     context_window_overlap := context_window_overlap self;
     memory_decay_rate := memory_decay_rate self;
     short_term_memory := short_term_memory self;
     working_memory := working_memory self;
     context_cache := cache |}.

(** [f"{message.role}: {message.content}"] *)
Definition render (message : ConversationMessage) : string :=
  msg_role message +:+ ": " +:+ msg_content message.

(** The loop of [get_context_for_conversation] over [reversed(messages)]:
    [msgs] is what is left to visit, most recent first. *)
Fixpoint collect (max_tokens : Z) (msgs : list ConversationMessage)
    (context_parts : list string) (total_length : Z) : list string * Z :=
  match msgs with
  | [] => (context_parts, total_length)
  | message :: rest =>
      let message_text := render message in
      let message_length := Z.of_nat (String.length message_text) in
      if (total_length + message_length <=? max_tokens)%Z
      then collect max_tokens rest (message_text :: context_parts)
                   (total_length + message_length)
      else (context_parts, total_length)
  end.

(** [max_tokens or self.max_context_length] *)
Definition effective_budget (self : t) (max_tokens : option Z) : Z :=
  match max_tokens with
  | Some n => if (n =? 0)%Z then max_context_length self else n
  | None => max_context_length self
  end.

(** [get_context_for_conversation]: the history is read through a fresh
    [ConversationManager] on the same database with [limit=50]; the
    exception handler logs and returns [""]. *)
Definition get_context_for_conversation (self : t) (io : storage) (db : Db)
    (now : Z) (conversation_id : string) (max_tokens : option Z)
  : string * t :=
  let max_tokens := effective_budget self max_tokens in
  match get_conversation_history io db conversation_id (Some 50%Z) true with
  | Raise _ => ("", self)
  | Return messages =>
      let '(context_parts, total_length) :=
        collect max_tokens (rev messages) [] 0%Z in
      let context := join newline context_parts in
      (context,
       set_context_cache self
         (<[conversation_id := {| context := context;
                                  cached_at := now;
                                  token_count := total_length |}]>
            (context_cache self)))
  end.

(** [update_working_memory] *)
Definition update_working_memory (self : t) (now : Z)
    (conversation_id key : string) (val : pyobj) (imp : float) : t :=
  let conv := default ∅ (working_memory self !! conversation_id) in
  set_working_memory self
    (<[conversation_id :=
         <[key := {| value := val; timestamp := now;
                     importance := imp; access_count := 1 |}]> conv]>
       (working_memory self)).

(** What [get_working_memory] returns: [None], one value, or the whole
    dictionary of the conversation. *)
Inductive recalled : Type :=
| Nothing
| OneValue (v : pyobj)
| WholeMap (m : gmap string MemoryItem).

Definition bump (item : MemoryItem) : MemoryItem :=
  {| value := value item; timestamp := timestamp item;
     importance := importance item;
     access_count := (access_count item + 1)%Z |}.

(** [get_working_memory]: [if key:] is false for [None] and for [""]. *)
Definition get_working_memory (self : t) (conversation_id : string)
    (key : option string) : recalled * t :=
  match working_memory self !! conversation_id with
  | None => (Nothing, self)
  | Some conv =>
      match key with
      | Some (String c k') =>
          let k := String c k' in
          match conv !! k with
          | Some memory_item =>
              (OneValue (value memory_item),
               set_working_memory self
                 (<[conversation_id := <[k := bump memory_item]> conv]>
                    (working_memory self)))
          | None => (Nothing, self)
          end
      | _ => (WholeMap conv, self)
      end
  end.

(** An entry of a long-term memory file.  The file is JSON; an entry is
    kept as the record that [json.dump] wrote. *)
Record Consolidated : Type := {
  lt_value : pyobj;
  lt_strength : float;
  lt_consolidated_at : Z
}.

(** The directory [data/memory]: the path of each JSON file to its decoded
    content.  A file cut short by an interrupted write holds no JSON and is
    not represented. *)
Abbreviation Disk := (gmap string (gmap string Consolidated)).

(** The components of a POSIX path as [pathlib] keeps them: the pieces
    between slashes that are neither empty nor ["."]. *)
Definition path_parts (path : string) : list string :=
  let '(p, ps) := PyStr.split_at "/" path in
  filter (fun part => part ≠ "" /\ part ≠ ".") (p :: ps).

(** [Path('data/memory') / f"{conversation_id}_memory.json"], as the text of
    the resulting POSIX path: a file name that starts with a slash replaces
    the directory (two leading slashes are kept, three or more are one),
    and empty and ["."] components are dropped.  The file system resolves
    [".."] components and links when the file is opened. *)
Definition memory_file (conversation_id : string) : string :=
  let name := conversation_id +:+ "_memory.json" in
  let body := join "/" (path_parts name) in
  if String.prefix "///" name then "/" +:+ body
  else if String.prefix "//" name then "//" +:+ body
  else if String.prefix "/" name then "/" +:+ body
  else "data/memory/" +:+ body.

(** [_store_long_term_memory]: load the file if it exists, [update] with
    the new memories, write it back; the exception handler logs and
    continues.  [Failing] is a memory directory that cannot be opened:
    the first operation on it raises and no file is read or written. *)
Definition _store_long_term_memory (fs : storage) (disk : Disk)
    (conversation_id : string) (memories : gmap string Consolidated) : Disk :=
  match fs with
  | Failing => disk
  | Healthy =>
      let existing_memories := default ∅ (disk !! memory_file conversation_id) in
      <[memory_file conversation_id := memories ∪ existing_memories]> disk
  end.

(** [retrieve_long_term_memory] *)
Definition retrieve_long_term_memory (fs : storage) (disk : Disk)
    (conversation_id : string) : gmap string Consolidated :=
  match fs with
  | Failing => ∅
  | Healthy => default ∅ (disk !! memory_file conversation_id)
  end.

(** [strength = memory_item['importance'] * memory_item['access_count']] *)
Definition strength (memory_item : MemoryItem) : float :=
  PrimFloat.mul (importance memory_item) (float_of_Z (access_count memory_item)).

Definition threshold : float := 2%float.

(** The body of the loop of [consolidate_memory] for one item. *)
Definition important (now : Z) (memory_item : MemoryItem) : option Consolidated :=
  if PrimFloat.ltb threshold (strength memory_item)
  then Some {| lt_value := value memory_item;
               lt_strength := strength memory_item;
               lt_consolidated_at := now |}
  else None.

(** [consolidate_memory] *)
Definition consolidate_memory (self : t) (fs : storage) (disk : Disk)
    (now : Z) (conversation_id : string) : t * Disk :=
  match working_memory self !! conversation_id with
  | None => (self, disk)
  | Some working_mem =>
      let important_memories := omap (important now) working_mem in
      if (size important_memories =? 0)%nat
      then (self, disk)
      else (self, _store_long_term_memory fs disk conversation_id important_memories)
  end.

(** The keyword lists of [extract_key_points] and [summarize_context]. *)
Definition key_point_words : list string :=
["important"; "key"; "main"; "primary"; "significant"; "critical";
 "remember"; "note"; "summary"; "conclusion"].


(** [any(word in sentence.lower() for word in words)] *)
Definition mentions (words : list string) (sentence : string) : bool :=
existsb (fun word => PyStr.contains word (PyStr.lower sentence)) words.

(** [extract_key_points]: the stripped sentences that are longer than 20
    characters and mention a keyword, the first five of them. *)
Definition extract_key_points (text : string) : list string :=
let sentences := PyStr.split_sentences text in
let key_points :=
  map PyStr.strip
    (List.filter (fun sentence =>
                    Nat.ltb 20 (String.length (PyStr.strip sentence))
                    && mentions key_point_words sentence)
                 sentences) in
take 5 key_points.




(** [datetime.min] and [datetime.max] in microseconds: 0001-01-01 00:00:00
    and 9999-12-31 23:59:59.999999.  A day has 86400000000 microseconds. *)
Definition datetime_min : Z := -62135596800000000.
Definition datetime_max : Z := 253402300799999999.
Definition day : Z := 86400000000.

(** [datetime.now() - timedelta(days=days)]: [timedelta] takes at most
    999999999 days either way and the difference has to be a date between
    [datetime.min] and [datetime.max]; otherwise [OverflowError] is raised,
    here [None]. *)
Definition days_before (now days : Z) : option Z :=
if (Z.abs days <=? 999999999)%Z
   && (datetime_min <=? now - days * day)%Z
   && (now - days * day <=? datetime_max)%Z
then Some (now - days * day)%Z
else None.

(** [cleanup_old_context]: the cutoff is [datetime.now() - timedelta(days)];
    cache entries and working-memory items stamped before it are deleted,
    and so is every conversation whose working memory is then empty.  When
    the cutoff cannot be computed the exception handler logs the error and
    nothing has been deleted. *)
Definition cleanup_old_context (self : t) (now : Z) (days : Z) : t :=
match days_before now days with
| None => self
| Some cutoff_date =>
    {| max_context_length := max_context_length self;
       context_window_overlap := context_window_overlap self;
       memory_decay_rate := memory_decay_rate self;
       short_term_memory := short_term_memory self;
       working_memory :=
         omap (fun working_mem : gmap string MemoryItem =>
                 let kept := filter (fun kv => ~ (timestamp kv.2 < cutoff_date)%Z)
                                    working_mem in
                 if (size kept =? 0)%nat then None else Some kept)
              (working_memory self);
       context_cache :=
         filter (fun kv => ~ (cached_at kv.2 < cutoff_date)%Z) (context_cache self) |}
end.

End ContextManager.

(* ===================================================================== *)
(** * ai_engine.py: the prompt builder                                    *)
(* ===================================================================== *)

Module AIEngine.

(** An entry of [history]: a dictionary with the keys ['user_message'] and
    ['ai_response']. *)
Record HistoryEntry : Type := {
  user_message : string;
  ai_response : string
}.

(** The dictionary [context]; an absent key reads as [None] through
    [context.get], here [PNone] and [[]]. *)
Record UserContext : Type := {
  preferences : pyobj;
  expertise_areas : list string
}.

(** The attribute of [MarkAICore] that [_build_prompt] reads. *)
Record MarkAICore : Type := {
  system_prompt : string
}.

Definition dq : string := String (Ascii.ascii_of_nat 34) "".

(** The triple-quoted literal that closes every prompt. *)
Definition response_instruction : string :=
  join newline
    [ "";
      "        Please provide a helpful response. If this is a complex problem, include your reasoning steps.";
      "        Format your response as JSON with the following structure:";
      "        {";
      "            " +:+ dq +:+ "response" +:+ dq +:+ ": " +:+ dq
        +:+ "Your main response here" +:+ dq +:+ ",";
      "            " +:+ dq +:+ "reasoning_steps" +:+ dq +:+ ": [" +:+ dq
        +:+ "Step 1" +:+ dq +:+ ", " +:+ dq +:+ "Step 2" +:+ dq +:+ ", ...],";
      "            " +:+ dq +:+ "confidence" +:+ dq +:+ ": 0.95,";
      "            " +:+ dq +:+ "suggestions" +:+ dq +:+ ": [" +:+ dq
        +:+ "Optional suggestion 1" +:+ dq +:+ ", ...]";
      "        }";
      "        " ].

(** [history[-10:]] *)
Definition last10 {A} (l : list A) : list A := drop (length l - 10) l.

Section BuildPrompt.

(** [json.dumps(obj, indent=2)] of Python's standard library. *)
Variable json_dumps_indent2 : pyobj -> string.

(** [_build_prompt]: [prompt_parts] grows by [append] and is joined with
    a blank line.  [attachments] is accepted and not read. *)
Definition _build_prompt (self : MarkAICore) (message : string)
    (history : list HistoryEntry) (context : UserContext)
    (attachments : option (list pyobj)) (additional_context : option pyobj)
  : string :=
  let prompt_parts := [system_prompt self] in
  let prompt_parts :=
    if truthy (preferences context)
    then prompt_parts
           ++ ["User Preferences: " +:+ json_dumps_indent2 (preferences context)]
    else prompt_parts in
  let prompt_parts :=
    match expertise_areas context with
    | [] => prompt_parts
    | areas => prompt_parts
                 ++ ["User's Expertise Areas: " +:+ join ", " areas]
    end in
  let prompt_parts :=
    match history with
    | [] => prompt_parts
    | _ =>
        (prompt_parts ++ ["Conversation History:"])
          ++ flat_map (fun entry => ["User: " +:+ user_message entry;
                                     "Assistant: " +:+ ai_response entry])
                      (last10 history)
    end in
  let prompt_parts :=
    match additional_context with
    | Some extra =>
        if truthy extra
        then prompt_parts
               ++ ["Additional Context: " +:+ json_dumps_indent2 extra]
        else prompt_parts
    | None => prompt_parts
    end in
  let prompt_parts := prompt_parts ++ ["Current Message: " +:+ message] in
  let prompt_parts := prompt_parts ++ [response_instruction] in
  join (newline +:+ newline) prompt_parts.

End BuildPrompt.

End AIEngine.

(* ===================================================================== *)
(** * config.py: dotted keys                                              *)
(* ===================================================================== *)

Module Config.

(** [k in d] and [d[k]] on a dictionary, and [d[k] = v]: an existing key
    keeps its place, a new key goes last. *)
Fixpoint dict_get (k : string) (d : list (string * pyobj)) : option pyobj :=
match d with
| [] => None
| (k', v) :: d' => if String.eqb k' k then Some v else dict_get k d'
end.

Fixpoint dict_set (k : string) (v : pyobj) (d : list (string * pyobj))
  : list (string * pyobj) :=
match d with
| [] => [(k, v)]
| (k', v') :: d' =>
    if String.eqb k' k then (k, v) :: d' else (k', v') :: dict_set k v d'
end.

(** [key.split('.')] as its first piece and the pieces after it. *)
Fixpoint split_dots (s : string) : string * list string :=
match s with
| EmptyString => (EmptyString, [])
| String c rest =>
    let '(p, ps) := split_dots rest in
    if Ascii.eqb c "." then (EmptyString, p :: ps) else (String c p, ps)
end.

Definition split_key (key : string) : list string :=
let '(p, ps) := split_dots key in p :: ps.

(** The loop of [get]: descend while the value is a dictionary that has
    the key, otherwise return the default. *)
Fixpoint descend (keys : list string) (value default : pyobj) : pyobj :=
match keys with
| [] => value
| k :: rest =>
    match value with
    | PDict d =>
        match dict_get k d with
        | Some v => descend rest v default
        | None => default
        end
    | _ => default
    end
end.

(** [Config.get(key, default)] on [self._config_data]. *)
Definition get (config_data : pyobj) (key : string) (default : pyobj) : pyobj :=
descend (split_key key) config_data default.

(** The loop of [set] over [keys[:-1]] and the final assignment
    [config[keys[-1]] = value].  A value on the way that is not a
    dictionary makes Python raise [TypeError] before anything is written:
    the result is [None] then. *)
Fixpoint assign (keys : list string) (last_key : string) (value : pyobj)
    (config : pyobj) : option pyobj :=
match config with
| PDict d =>
    match keys with
    | [] => Some (PDict (dict_set last_key value d))
    | k :: rest =>
        let child := match dict_get k d with
                     | Some c => c
                     | None => PDict []
                     end in
        match assign rest last_key value child with
        | Some child' => Some (PDict (dict_set k child' d))
        | None => None
        end
    end
| _ => None
end.

(** [Config.set(key, value)]: the new [self._config_data], or [None] when
    [TypeError] is raised. *)
Definition set (config_data : pyobj) (key : string) (value : pyobj) : option pyobj :=
let keys := split_key key in
assign (removelast keys) (List.last keys EmptyString) value config_data.

End Config.

(* ===================================================================== *)
(** * Properties                                                          *)
(* ===================================================================== *)

Import Sqlite ConversationManager ContextManager AIEngine.

(** ** Vocabulary and sample data *)

(** Number of characters of all the parts together. *)
Fixpoint chars (parts : list string) : nat :=
  match parts with
  | [] => 0
  | p :: rest => String.length p + chars rest
  end.

(** A sample context manager with the default configuration
    (8000, 200 and 0.95, the last as the binary64 value Python reads). *)
Definition default_manager : ContextManager.t :=
  {| max_context_length := 8000;
     context_window_overlap := 200;
     memory_decay_rate := 0x1.e666666666666p-1%float;
     short_term_memory := ∅;
     working_memory := ∅;
     context_cache := ∅ |}.

(** A message row of conversation ["c1"] stamped [n]. *)
Definition sample_row (n : Z) (role content : string) : MessageRow :=
  {| m_id := "m" +:+ content; m_conversation_id := "c1"; m_role := role;
     m_content := content; m_timestamp := n; m_metadata := PDict [];
     m_tokens_used := None; m_processing_time := None; m_confidence := None |}.

(** The row of conversation ["c1"], owned by ["alice"]. *)
Definition sample_conversation : ConversationRow :=
  {| c_id := "c1"; c_user_id := "alice"; c_title := "t";
     c_created_at := 0; c_updated_at := 0; c_metadata := PDict [] |}.

(** Stores holding conversation ["c1"] with one and with two messages. *)
Definition one_message_db : Db :=
  {| conversations := [sample_conversation];
     messages := [sample_row 1 "user" "hello"] |}.

Definition two_message_db : Db :=
  {| conversations := [sample_conversation];
     messages := [sample_row 1 "user" "a"; sample_row 2 "user" "b"] |}.

(** Conversation ["c1"] with three messages, of which the second carries
    7 tokens and the third 5. *)
Definition counted_db : Db :=
  let db1 := snd (add_message Healthy one_message_db "m2" 2 "c1" "assistant"
                    "Hi there" None (Some 7%Z) None None) in
  snd (add_message Healthy db1 "m3" 3 "c1" "assistant" "4"
         None (Some 5%Z) None (Some 0.5%float)).

(** A store with three conversations: ["c0"] of ["alice"], last updated at
    second 3; ["c1"] of ["alice"], last updated at second 0 and holding one
    message; ["c9"] of ["bob"], last updated at second 5. *)
Definition two_user_db : Db :=
  {| conversations :=
       [ {| c_id := "c0"; c_user_id := "alice"; c_title := "old";
            c_created_at := 0; c_updated_at := 3; c_metadata := PDict [] |};
         sample_conversation;
         {| c_id := "c9"; c_user_id := "bob"; c_title := "other";
            c_created_at := 0; c_updated_at := 5; c_metadata := PDict [] |} ];
     messages := [sample_row 1 "user" "hello"] |}.

(** [before x y l]: some occurrence of [x] in [l] comes before some
    occurrence of [y]. *)
Inductive before {A} (x y : A) : list A -> Prop :=
| before_here (l : list A) : y ∈ l -> before x y (x :: l)
| before_later (z : A) (l : list A) : before x y l -> before x y (z :: l).

(** The order of timestamps, on messages and on rows. *)
Definition oldest_first (a b : ConversationMessage) : Prop :=
  (msg_timestamp a <= msg_timestamp b)%Z.

Definition rows_oldest_first (a b : MessageRow) : Prop :=
  (m_timestamp a <= m_timestamp b)%Z.

(** The store after two appends to conversation ["c1"], the second one made
    after the host clock was set back from second 10 to second 5. *)
Definition clock_set_back_db : Db :=
  let db1 := snd (add_message Healthy empty_db "m1" 10 "c1" "user" "first"
                    None None None None) in
  snd (add_message Healthy db1 "m2" 5 "c1" "assistant" "second"
         None None None None).

(** Working memory after: ["name"] stored with importance 2.0 and read
    twice, ["mood"] stored with importance 0.5 and read once. *)
Definition remembering_manager : ContextManager.t :=
  let s1 := update_working_memory default_manager 0 "c1" "name" (PStr "Ada") 2%float in
  let s2 := snd (get_working_memory s1 "c1" (Some "name")) in
  let s3 := snd (get_working_memory s2 "c1" (Some "name")) in
  let s4 := update_working_memory s3 0 "c1" "mood" (PStr "calm") 0.5%float in
  snd (get_working_memory s4 "c1" (Some "mood")).

Definition remembered : gmap string MemoryItem :=
  default ∅ (working_memory remembering_manager !! "c1").

(** Working memory holding ["name"], stored at second 0, and ["mood"],
    stored at second 650000 (clock readings in microseconds). *)
Definition aged_manager : ContextManager.t :=
  update_working_memory
    (update_working_memory default_manager 0 "c1" "name" (PStr "Ada") 2%float)
    650000000000 "c1" "mood" (PStr "calm") 0.5%float.

(** ** Strings and joins *)

Lemma string_length_app (s1 s2 : string) :
  String.length (s1 +:+ s2) = String.length s1 + String.length s2.
Proof. induction s1 as [|c s1 IH]; simpl; [reflexivity | now rewrite IH]. Qed.

Lemma chars_app (l1 l2 : list string) : chars (l1 ++ l2) = chars l1 + chars l2.
Proof. induction l1 as [|p l1 IH]; simpl; lia. Qed.

Lemma join_length (sep : string) (parts : list string) :
  String.length (join sep parts)
  = chars parts + String.length sep * (length parts - 1).
Proof.
  induction parts as [|p rest IH]; [simpl; lia |].
  destruct rest as [|q rest].
  - simpl. lia.
  - change (join sep (p :: q :: rest)) with (p +:+ sep +:+ join sep (q :: rest)).
    rewrite !string_length_app, IH. simpl. lia.
Qed.

Lemma render_length (m : ConversationMessage) :
  String.length (render m)
  = String.length (msg_role m) + 2 + String.length (msg_content m).
Proof. unfold render. rewrite !string_length_app. simpl. lia. Qed.

(** ** The selection loop of the context assembler *)

Lemma collect_spec (max_tokens : Z) (msgs : list ConversationMessage) :
  forall (parts : list string) (total : Z),
    exists kept : list string,
      collect max_tokens msgs parts total
      = (kept ++ parts, (total + Z.of_nat (chars kept))%Z)
      /\ ((total <= max_tokens)%Z ->
          (total + Z.of_nat (chars kept) <= max_tokens)%Z).
Proof.
  induction msgs as [|m rest IH]; intros parts total; simpl.
  - exists []. simpl. split; [f_equal; lia | lia].
  - destruct (Z.leb_spec (total + Z.of_nat (String.length (render m))) max_tokens)
      as [Hfit | Hover].
    + destruct (IH (render m :: parts) (total + Z.of_nat (String.length (render m)))%Z)
        as (kept & Heq & Hle).
      exists (kept ++ [render m]). rewrite Heq, <- app_assoc, chars_app. simpl.
      split; [f_equal; lia |]. intros _. specialize (Hle Hfit). lia.
    + exists []. simpl. split; [f_equal; lia | lia].
Qed.

Lemma collect_first_over (max_tokens : Z) (m : ConversationMessage)
    (rest : list ConversationMessage) :
  (max_tokens < Z.of_nat (String.length (render m)))%Z ->
  collect max_tokens (m :: rest) [] 0%Z = ([], 0%Z).
Proof.
  intros Hover. simpl.
  destruct (Z.leb_spec (0 + Z.of_nat (String.length (render m))) max_tokens);
    [lia | reflexivity].
Qed.

Lemma collect_first_fits (max_tokens : Z) (m : ConversationMessage)
    (rest : list ConversationMessage) :
  (Z.of_nat (String.length (render m)) <= max_tokens)%Z ->
  exists kept : list string,
    collect max_tokens (m :: rest) [] 0%Z
    = (kept ++ [render m], Z.of_nat (chars (kept ++ [render m])))
    /\ (Z.of_nat (chars (kept ++ [render m])) <= max_tokens)%Z.
Proof.
  intros Hfit. simpl.
  destruct (Z.leb_spec (0 + Z.of_nat (String.length (render m))) max_tokens);
    [| lia].
  destruct (collect_spec max_tokens rest [render m]
              (0 + Z.of_nat (String.length (render m)))%Z) as (kept & Heq & Hle).
  exists kept. rewrite Heq, chars_app. simpl.
  split; [f_equal; lia |]. specialize (Hle ltac:(lia)). lia.
Qed.

Lemma rev_last_cons {A} (l : list A) (x : A) :
  last l = Some x -> exists l', rev l = x :: l'.
Proof.
  intros H. apply last_Some in H as [l' ->].
  exists (rev l'). now rewrite rev_app_distr.
Qed.

Lemma chars_rev (l : list string) : chars (rev l) = chars l.
Proof.
  induction l as [|p l IH]; [reflexivity |].
  simpl. rewrite chars_app, IH. simpl. lia.
Qed.

Lemma rev_is_reverse {A} (l : list A) : rev l = reverse l.
Proof. apply rev_alt. Qed.

Lemma collect_takes_prefix (max_tokens : Z) (msgs : list ConversationMessage) :
  forall (parts : list string) (total : Z),
    exists k : nat,
      k <= length msgs
      /\ collect max_tokens msgs parts total
         = (rev (map render (take k msgs)) ++ parts,
            (total + Z.of_nat (chars (map render (take k msgs))))%Z)
      /\ ((total <= max_tokens)%Z ->
          (total + Z.of_nat (chars (map render (take k msgs))) <= max_tokens)%Z)
      /\ (forall m : ConversationMessage,
             msgs !! k = Some m ->
             (max_tokens < total + Z.of_nat (chars (map render (take k msgs)))
                           + Z.of_nat (String.length (render m)))%Z).
Proof.
  induction msgs as [|m rest IH]; intros parts total.
  - exists 0. simpl. split; [lia |]. split; [f_equal; lia |].
    split; [lia |]. intros ? [=].
  - simpl collect.
    destruct (Z.leb_spec (total + Z.of_nat (String.length (render m))) max_tokens)
      as [Hfit | Hover].
    + destruct (IH (render m :: parts) (total + Z.of_nat (String.length (render m)))%Z)
        as (k & Hk & Heq & Hle & Hnext).
      exists (S k). simpl. rewrite Heq, <- app_assoc. simpl.
      split; [lia |]. split; [f_equal; lia |]. split.
      * intros _. specialize (Hle Hfit). lia.
      * intros m' Hm'. specialize (Hnext m' Hm'). lia.
    + exists 0. simpl. split; [lia |]. split; [f_equal; lia |].
      split; [lia |]. intros m' [= <-]. lia.
Qed.

(** What [get_context_for_conversation] computes from the fetched history
    [messages]: the renderings of a suffix [drop j messages], joined by
    newlines, cached with the number of their characters; the suffix is as
    long as the budget allows. *)
Lemma context_and_cache_of_fetched
    (self : ContextManager.t) (db : Db) (now : Z) (conversation_id : string)
    (max_tokens : option Z) (messages : list ConversationMessage) :
  get_conversation_history Healthy db conversation_id (Some 50%Z) true
  = Return messages ->
  exists j : nat,
    j <= length messages
    /\ get_context_for_conversation self Healthy db now conversation_id max_tokens
       = (join newline (map render (drop j messages)),
          set_context_cache self
            (<[conversation_id :=
                 {| context := join newline (map render (drop j messages));
                    cached_at := now;
                    token_count :=
                      Z.of_nat (chars (map render (drop j messages))) |}]>
               (context_cache self)))
    /\ ((0 <= effective_budget self max_tokens)%Z ->
        (Z.of_nat (chars (map render (drop j messages)))
         <= effective_budget self max_tokens)%Z)
    /\ (forall (i : nat) (older : ConversationMessage),
           S i = j ->
           messages !! i = Some older ->
           (effective_budget self max_tokens
            < Z.of_nat (chars (map render (drop j messages)))
              + Z.of_nat (String.length (render older)))%Z).
Proof.
  intros Hhist. unfold get_context_for_conversation. rewrite Hhist.
  destruct (collect_takes_prefix (effective_budget self max_tokens)
              (rev messages) [] 0%Z) as (k & Hk & -> & Hle & Hnext).
  rewrite length_rev in Hk.
  assert (Htake : take k (rev messages) = rev (drop (length messages - k) messages)).
  { apply firstn_rev. }
  rewrite Htake in *.
  assert (Hparts : rev (map render (rev (drop (length messages - k) messages))) ++ []
                   = map render (drop (length messages - k) messages)).
  { rewrite app_nil_r, map_rev, rev_involutive. reflexivity. }
  assert (Hchars : chars (map render (rev (drop (length messages - k) messages)))
                   = chars (map render (drop (length messages - k) messages))).
  { now rewrite map_rev, chars_rev. }
  rewrite Hchars in *.
  exists (length messages - k). rewrite Hparts, Z.add_0_l.
  split; [lia |]. split; [reflexivity |]. split.
  - intros Hbudget. specialize (Hle Hbudget). lia.
  - intros i older Hi Holder. specialize (Hnext older).
    assert (Hlookup : rev messages !! k = Some older).
    { assert (Hi' : i < length messages) by (eapply lookup_lt_Some; exact Holder).
      rewrite rev_is_reverse, reverse_lookup by lia.
      replace (length messages - S k) with i by lia. exact Holder. }
    specialize (Hnext Hlookup). lia.
Qed.

Lemma context_suffix_of_fetched
    (self : ContextManager.t) (db : Db) (now : Z) (conversation_id : string)
    (max_tokens : option Z) (messages : list ConversationMessage) :
  get_conversation_history Healthy db conversation_id (Some 50%Z) true
  = Return messages ->
  exists j : nat,
    j <= length messages
    /\ fst (get_context_for_conversation self Healthy db now conversation_id
              max_tokens)
       = join newline (map render (drop j messages))
    /\ ((0 <= effective_budget self max_tokens)%Z ->
        (Z.of_nat (chars (map render (drop j messages)))
         <= effective_budget self max_tokens)%Z)
    /\ (forall (i : nat) (older : ConversationMessage),
           S i = j ->
           messages !! i = Some older ->
           (effective_budget self max_tokens
            < Z.of_nat (chars (map render (drop j messages)))
              + Z.of_nat (String.length (render older)))%Z).
Proof.
  intros Hhist.
  destruct (context_and_cache_of_fetched self db now conversation_id max_tokens
              messages Hhist) as (j & Hj & Heq & Hfit & Hmax).
  exists j. rewrite Heq. repeat split; assumption.
Qed.

(** ** C1: the most recent message is over the budget *)

(** C1, as stated, fails: the only message of the conversation renders as
    ["user: hello"] (11 characters), the budget is 5, and the assembled
    context is not that message. *)
Lemma assemble_over_budget_not_included :
  get_conversation_history Healthy one_message_db "c1" (Some 50%Z) true
  = Return [message_of_row true (sample_row 1 "user" "hello")]
  /\ (5 < Z.of_nat (String.length
                     (render (message_of_row true (sample_row 1 "user" "hello")))))%Z
  /\ fst (get_context_for_conversation default_manager Healthy one_message_db
            0 "c1" (Some 5%Z))
     <> render (message_of_row true (sample_row 1 "user" "hello")).
Proof. vm_compute. repeat split; discriminate. Qed.

(** C1 (amended): when the most recent fetched message, rendered as
    ["<role>: <content>"], is strictly longer than the budget, the loop
    stops at once and the assembled context is the empty string; the cache
    records a token count of 0. *)
Theorem assemble_over_budget_is_empty
    (self : ContextManager.t) (db : Db) (now : Z) (conversation_id : string)
    (max_tokens : option Z) (messages : list ConversationMessage)
    (recent : ConversationMessage) :
  get_conversation_history Healthy db conversation_id (Some 50%Z) true
  = Return messages ->
  last messages = Some recent ->
  (effective_budget self max_tokens < Z.of_nat (String.length (render recent)))%Z ->
  let '(context, self') :=
    get_context_for_conversation self Healthy db now conversation_id max_tokens in
  context = ""
  /\ context_cache self' !! conversation_id
     = Some {| context := ""; cached_at := now; token_count := 0 |}.
Proof.
  intros Hhist Hlast Hover. unfold get_context_for_conversation.
  rewrite Hhist. destruct (rev_last_cons _ _ Hlast) as [older ->].
  rewrite collect_first_over by exact Hover. simpl.
  split; [reflexivity | apply lookup_insert_eq].
Qed.

Lemma assemble_over_budget_is_empty_witness :
  let '(context, self') :=
    get_context_for_conversation default_manager Healthy one_message_db
      0 "c1" (Some 5%Z) in
  context = ""
  /\ context_cache self' !! "c1"
     = Some {| context := ""; cached_at := 0; token_count := 0 |}.
Proof.
  exact (assemble_over_budget_is_empty default_manager one_message_db 0 "c1"
           (Some 5%Z) [message_of_row true (sample_row 1 "user" "hello")]
           (message_of_row true (sample_row 1 "user" "hello"))
           eq_refl eq_refl ltac:(vm_compute; reflexivity)).
Defined.

(** ** C2: the budget and the separators *)

(** C2, as stated, fails: two messages of 7 characters each and a budget of
    14.  The most recent message fits, both are kept because
    7 + 7 <= 14, and the joined context has 15 characters. *)
Lemma assemble_exceeds_budget_by_separator :
  get_conversation_history Healthy two_message_db "c1" (Some 50%Z) true
  = Return [message_of_row true (sample_row 1 "user" "a");
            message_of_row true (sample_row 2 "user" "b")]
  /\ (Z.of_nat (String.length
                  (render (message_of_row true (sample_row 2 "user" "b")))) <= 14)%Z
  /\ ~ (Z.of_nat (String.length
                    (fst (get_context_for_conversation default_manager Healthy
                            two_message_db 0 "c1" (Some 14%Z)))) <= 14)%Z.
Proof. vm_compute. repeat split; try discriminate. intros H; apply H; reflexivity. Qed.

(** C2 (amended): when the most recent fetched message fits the budget [B],
    the context is the newline-join of the renderings [kept] of the last
    [k >= 1] fetched messages: a suffix [drop j messages] of the fetched
    history that ends in the most recent message.  The lengths of the
    renderings add up to at most [B]; the newline separators are not
    counted against the budget, so the context has [k - 1] characters more
    than that sum, at most [B + (k - 1)].  The suffix is as long as this
    count allows, and the sum without separators is what the cache records
    as [token_count]. *)
Theorem assemble_within_budget_plus_separators
    (self : ContextManager.t) (db : Db) (now : Z) (conversation_id : string)
    (B : Z) (messages : list ConversationMessage) (recent : ConversationMessage) :
  get_conversation_history Healthy db conversation_id (Some 50%Z) true
  = Return messages ->
  last messages = Some recent ->
  (Z.of_nat (String.length (render recent)) <= B)%Z ->
  let '(context, self') :=
    get_context_for_conversation self Healthy db now conversation_id (Some B) in
  exists (j : nat) (kept : list string),
    j < length messages
    /\ kept = map render (drop j messages)
    /\ last kept = Some (render recent)
    /\ context = join newline kept
    /\ 1 <= length kept
    /\ (Z.of_nat (chars kept) <= B)%Z
    /\ String.length context = chars kept + (length kept - 1)
    /\ (Z.of_nat (String.length context) <= B + (Z.of_nat (length kept) - 1))%Z
    /\ (forall (i : nat) (older : ConversationMessage),
           S i = j ->
           messages !! i = Some older ->
           (B < Z.of_nat (chars kept) + Z.of_nat (String.length (render older)))%Z)
    /\ context_cache self' !! conversation_id
       = Some {| context := context; cached_at := now;
                 token_count := Z.of_nat (chars kept) |}.
Proof.
  intros Hhist Hlast Hfit.
  assert (HB : effective_budget self (Some B) = B).
  { unfold effective_budget. destruct (Z.eqb_spec B 0) as [-> |]; [| reflexivity].
    rewrite render_length in Hfit. lia. }
  destruct (context_and_cache_of_fetched self db now conversation_id (Some B)
              messages Hhist) as (j & Hj & -> & Hsum & Hmax).
  rewrite HB in Hsum, Hmax.
  assert (Hpos : (0 <= B)%Z) by lia. specialize (Hsum Hpos).
  assert (Hrecent : messages !! pred (length messages) = Some recent).
  { now rewrite <- last_lookup. }
  assert (Hnonempty : 0 < length messages).
  { destruct messages; [discriminate | simpl; lia]. }
  assert (Hlt : j < length messages).
  { destruct (decide (j < length messages)) as [? | Hge]; [assumption |].
    exfalso. assert (Hall : j = length messages) by lia.
    specialize (Hmax (pred (length messages)) recent ltac:(lia) Hrecent).
    rewrite Hall, drop_all in Hmax. simpl in Hmax. lia. }
  assert (Hlen : length (map render (drop j messages)) = length messages - j).
  { now rewrite length_map, length_drop. }
  assert (Hjoin : String.length (join newline (map render (drop j messages)))
                  = chars (map render (drop j messages))
                    + (length (map render (drop j messages)) - 1)).
  { rewrite join_length. simpl. lia. }
  exists j, (map render (drop j messages)).
  split; [exact Hlt |]. split; [reflexivity |]. split.
  { change (map render (drop j messages)) with (render <$> drop j messages).
    rewrite fmap_last, last_lookup, lookup_drop, length_drop.
    replace (j + pred (length messages - j)) with (pred (length messages)) by lia.
    now rewrite Hrecent. }
  split; [reflexivity |]. split; [lia |]. split; [exact Hsum |].
  split; [exact Hjoin |]. split; [rewrite Hjoin; lia |].
  split; [exact Hmax |]. simpl. apply lookup_insert_eq.
Qed.

Lemma assemble_within_budget_plus_separators_witness :
  let '(context, self') :=
    get_context_for_conversation default_manager Healthy two_message_db
      0 "c1" (Some 14%Z) in
  exists (j : nat) (kept : list string),
    j < length [message_of_row true (sample_row 1 "user" "a");
                message_of_row true (sample_row 2 "user" "b")]
    /\ kept = map render (drop j [message_of_row true (sample_row 1 "user" "a");
                                  message_of_row true (sample_row 2 "user" "b")])
    /\ last kept = Some (render (message_of_row true (sample_row 2 "user" "b")))
    /\ context = join newline kept
    /\ 1 <= length kept
    /\ (Z.of_nat (chars kept) <= 14)%Z
    /\ String.length context = chars kept + (length kept - 1)
    /\ (Z.of_nat (String.length context) <= 14 + (Z.of_nat (length kept) - 1))%Z
    /\ (forall (i : nat) (older : ConversationMessage),
           S i = j ->
           [message_of_row true (sample_row 1 "user" "a");
            message_of_row true (sample_row 2 "user" "b")] !! i = Some older ->
           (14 < Z.of_nat (chars kept) + Z.of_nat (String.length (render older)))%Z)
    /\ context_cache self' !! "c1"
       = Some {| context := context; cached_at := 0;
                 token_count := Z.of_nat (chars kept) |}.
Proof.
  exact (assemble_within_budget_plus_separators default_manager
           two_message_db 0 "c1" 14
           [message_of_row true (sample_row 1 "user" "a");
            message_of_row true (sample_row 2 "user" "b")]
           (message_of_row true (sample_row 2 "user" "b"))
           eq_refl eq_refl ltac:(vm_compute; discriminate)).
Defined.

(** ** C3: appending to a conversation that does not exist *)

Lemma existsb_eqb_false {A} (key : A -> string) (k : string) (l : list A) :
  existsb (fun x => String.eqb (key x) k) l = false ->
  Forall (fun x => key x ≠ k) l.
Proof.
  induction l as [|x l IH]; simpl; intros H; constructor.
  - apply orb_false_elim in H as [H _]. now apply String.eqb_neq.
  - apply IH. now apply orb_false_elim in H as [_ H].
Qed.

Lemma touch_absent (cid : string) (now : Z) (l : list ConversationRow) :
  Forall (fun c => c_id c ≠ cid) l ->
  map (fun c => if String.eqb (c_id c) cid then set_updated_at now c else c) l = l.
Proof.
  induction 1 as [|c l Hc _ IH]; simpl; [reflexivity |].
  apply String.eqb_neq in Hc. now rewrite Hc, IH.
Qed.

(** C3: what [add_message] does for a conversation id that is in no row of
    [conversations].  The INSERT is not guarded by a lookup and the declared
    foreign key is not enforced, so the call returns the new message id and
    leaves a message row whose conversation does not exist; the UPDATE
    matches no row. *)
Theorem add_message_to_missing_conversation
    (db : Db) (uuid4 : string) (now : Z) (conversation_id role content : string)
    (metadata : option pyobj) (tokens_used : option Z)
    (processing_time confidence : option float) :
  conversation_exists conversation_id db = false ->
  message_exists uuid4 db = false ->
  exists row : MessageRow,
    add_message Healthy db uuid4 now conversation_id role content metadata
                tokens_used processing_time confidence
    = (Return uuid4, {| conversations := conversations db;
                        messages := messages db ++ [row] |})
    /\ m_id row = uuid4
    /\ m_conversation_id row = conversation_id
    /\ m_content row = content.
Proof.
  intros Hmissing Hfresh. unfold add_message, tx_bind, connect, insert_message.
  simpl. rewrite Hfresh. simpl. eexists. split.
  - unfold touch_conversation, tx_ret. simpl.
    rewrite touch_absent; [reflexivity |].
    now apply existsb_eqb_false.
  - repeat split; reflexivity.
Qed.

Lemma add_message_to_missing_conversation_witness :
  exists row : MessageRow,
    add_message Healthy empty_db "m1" 0 "ghost" "user" "hi" None None None None
    = (Return "m1", {| conversations := []; messages := [] ++ [row] |})
    /\ m_id row = "m1"
    /\ m_conversation_id row = "ghost"
    /\ m_content row = "hi".
Proof.
  exact (add_message_to_missing_conversation empty_db "m1" 0 "ghost" "user" "hi"
           None None None None eq_refl eq_refl).
Defined.

(** Whatever the conversation id, a successful append stamps every
    conversation row of that id with the time of the append. *)
Lemma add_message_refreshes_updated_at
    (db : Db) (uuid4 : string) (now : Z) (conversation_id role content : string)
    (metadata : option pyobj) (tokens_used : option Z)
    (processing_time confidence : option float) :
  message_exists uuid4 db = false ->
  exists db' : Db,
    add_message Healthy db uuid4 now conversation_id role content metadata
                tokens_used processing_time confidence = (Return uuid4, db')
    /\ length (messages db') = S (length (messages db))
    /\ length (conversations db') = length (conversations db)
    /\ forall c : ConversationRow,
         c ∈ conversations db' -> c_id c = conversation_id -> c_updated_at c = now.
Proof.
  intros Hfresh. unfold add_message, tx_bind, connect, insert_message.
  simpl. rewrite Hfresh. simpl. eexists. split; [reflexivity |]. simpl.
  split; [rewrite length_app; simpl; lia |].
  split; [apply length_map |].
  intros c Hc Hid. apply list_elem_of_fmap in Hc as (c0 & -> & _).
  destruct (String.eqb_spec (c_id c0) conversation_id) as [_ | Hne].
  - reflexivity.
  - contradiction.
Qed.

(** ** C4: deleting a conversation that does not exist *)

Lemma filter_all {A} (P : A -> Prop) `{!forall x, Decision (P x)} (l : list A) :
  Forall P l -> filter P l = l.
Proof.
  induction 1 as [|x l Hx _ IH]; [reflexivity |].
  rewrite filter_cons_True by assumption. now rewrite IH.
Qed.

(** C4, as stated, fails: deleting from an empty registry returns [True]. *)
Lemma delete_missing_reports_success :
  conversation_exists "ghost" empty_db = false
  /\ fst (delete_conversation Healthy empty_db "ghost") <> false.
Proof. vm_compute. split; [reflexivity | discriminate]. Qed.

(** C4 (amended): for a conversation id that is in no row of
    [conversations], [delete_conversation] never raises and leaves the
    registry as it was; it returns [True] when the store answers and
    [False] only when the store fails.  Message rows of other conversations
    are kept. *)
Theorem delete_missing_conversation
    (io : storage) (db : Db) (conversation_id : string) :
  conversation_exists conversation_id db = false ->
  let '(deleted, db') := delete_conversation io db conversation_id in
  deleted = match io with Healthy => true | Failing => false end
  /\ conversations db' = conversations db
  /\ filter (fun m => m_conversation_id m ≠ conversation_id) (messages db')
     = filter (fun m => m_conversation_id m ≠ conversation_id) (messages db).
Proof.
  intros Hmissing. destruct io; simpl.
  - repeat split.
    + apply filter_all. now apply existsb_eqb_false.
    + apply filter_all. apply Forall_forall. intros m Hm.
      now apply list_elem_of_filter in Hm as [Hm _].
  - repeat split.
Qed.

Lemma delete_missing_conversation_witness :
  let '(deleted, db') := delete_conversation Healthy one_message_db "ghost" in
  deleted = true
  /\ conversations db' = conversations one_message_db
  /\ filter (fun m => m_conversation_id m ≠ "ghost") (messages db')
     = filter (fun m => m_conversation_id m ≠ "ghost") (messages one_message_db).
Proof.
  exact (delete_missing_conversation Healthy one_message_db "ghost" eq_refl).
Defined.

(** ** C5: the order of the history *)

Lemma before_split {A} (x y : A) (l : list A) :
  before x y l <-> exists a b c, l = a ++ x :: b ++ y :: c.
Proof.
  split.
  - induction 1 as [l Hy | z l _ (a & b & c & ->)].
    + apply list_elem_of_split in Hy as (b & c & ->). now exists [], b, c.
    + now exists (z :: a), b, c.
  - intros (a & b & c & ->). induction a as [|z a IH]; simpl.
    + apply before_here. set_solver.
    + now apply before_later.
Qed.

Lemma before_map {A B} (f : A -> B) (x y : A) (l : list A) :
  before x y l -> before (f x) (f y) (map f l).
Proof.
  induction 1 as [l Hy | z l _ IH]; simpl.
  - apply before_here. now apply list_elem_of_fmap_2.
  - now apply before_later.
Qed.

Lemma before_filter {A} (P : A -> Prop) `{!forall x, Decision (P x)}
    (x y : A) (l : list A) :
  P x -> P y -> before x y l -> before x y (filter P l).
Proof.
  intros Hx Hy. induction 1 as [l Hin | z l _ IH].
  - rewrite filter_cons_True by assumption.
    apply before_here. now apply list_elem_of_filter.
  - destruct (decide (P z)).
    + rewrite filter_cons_True by assumption. now apply before_later.
    + now rewrite filter_cons_False by assumption.
Qed.

Lemma before_app_r {A} (x y : A) (l extra : list A) :
  before x y l -> before x y (l ++ extra).
Proof.
  induction 1 as [l Hy | z l _ IH]; simpl.
  - apply before_here. set_solver.
  - now apply before_later.
Qed.

Lemma before_snoc {A} (x y : A) (l : list A) :
  x ∈ l -> before x y (l ++ [y]).
Proof.
  intros Hx. apply list_elem_of_split in Hx as (a & b & ->).
  apply before_split. exists a, b, []. now rewrite <- app_assoc.
Qed.

Section OrderBy.
Context {A : Type} (le : A -> A -> bool).

Lemma elem_of_insert_by (x y : A) (l : list A) :
  y ∈ insert_by le x l <-> y = x \/ y ∈ l.
Proof.
  induction l as [|z l IH]; simpl.
  - set_solver.
  - destruct (le x z).
    + rewrite !elem_of_cons. tauto.
    + rewrite !elem_of_cons, IH. tauto.
Qed.

Lemma elem_of_order_by (y : A) (l : list A) :
  y ∈ order_by le l <-> y ∈ l.
Proof.
  induction l as [|z l IH]; simpl; [reflexivity |].
  rewrite elem_of_insert_by, elem_of_cons, IH. tauto.
Qed.

(** Inserting a row keeps the relative order of the rows already there. *)
Lemma before_insert_by (x y z : A) (l : list A) :
  before x y l -> before x y (insert_by le z l).
Proof.
  induction l as [|w l IH]; simpl; intros H.
  - inversion H.
  - destruct (le z w); [now apply before_later |].
    inversion H as [l' Hy | w' l' Hb]; subst.
    + apply before_here. apply elem_of_insert_by. now right.
    + apply before_later. now apply IH.
Qed.

(** A row is inserted before every row it is allowed to precede. *)
Lemma insert_by_first (x y : A) (l : list A) :
  le x y = true -> y ∈ l -> before x y (insert_by le x l).
Proof.
  intros Hxy. induction l as [|w l IH]; simpl; intros Hy.
  - inversion Hy.
  - destruct (le x w) eqn:Hxw; [now apply before_here |].
    apply before_later. apply elem_of_cons in Hy as [-> | Hy].
    + congruence.
    + now apply IH.
Qed.

(** Stability: a row scanned earlier stays earlier unless its key is
    strictly larger. *)
Lemma order_by_stable (x y : A) (l : list A) :
  le x y = true -> before x y l -> before x y (order_by le l).
Proof.
  intros Hxy. induction 1 as [l Hy | z l _ IH]; simpl.
  - apply insert_by_first; [assumption | now apply elem_of_order_by].
  - now apply before_insert_by.
Qed.
End OrderBy.

Lemma insert_by_timestamp_sorted (r : MessageRow) (l : list MessageRow) :
  StronglySorted rows_oldest_first l ->
  StronglySorted rows_oldest_first (insert_by timestamp_asc r l).
Proof.
  induction 1 as [|w l Hs IH Hw]; simpl.
  - constructor; [constructor | constructor].
  - unfold timestamp_asc. destruct (Z.leb_spec (m_timestamp r) (m_timestamp w)) as [Hle | Hgt].
    + constructor; [now constructor |].
      constructor; [exact Hle |].
      eapply Forall_impl; [exact Hw |]. unfold rows_oldest_first. intros; lia.
    + constructor; [exact IH |].
      apply Forall_forall. intros y Hy.
      apply elem_of_insert_by in Hy as [-> | Hy].
      * unfold rows_oldest_first. lia.
      * rewrite Forall_forall in Hw. now apply Hw.
Qed.

Lemma order_by_timestamp_sorted (l : list MessageRow) :
  StronglySorted rows_oldest_first (order_by timestamp_asc l).
Proof.
  induction l as [|r l IH]; simpl; [constructor |].
  now apply insert_by_timestamp_sorted.
Qed.

Lemma StronglySorted_map_messages (include_metadata : bool) (l : list MessageRow) :
  StronglySorted rows_oldest_first l ->
  StronglySorted oldest_first (map (message_of_row include_metadata) l).
Proof.
  induction 1 as [|r l _ IH Hr]; simpl; constructor; [exact IH |].
  apply Forall_forall. intros m Hm.
  apply list_elem_of_fmap in Hm as (r' & -> & Hr').
  rewrite Forall_forall in Hr. exact (Hr r' Hr').
Qed.

(** The unlimited history is the stable sort of the conversation's rows. *)
Lemma history_unlimited (db : Db) (conversation_id : string) :
  get_conversation_history Healthy db conversation_id None true
  = Return (map (message_of_row true)
              (order_by timestamp_asc
                 (filter (fun m => m_conversation_id m = conversation_id)
                         (messages db)))).
Proof. reflexivity. Qed.

(** With a limit that is a 64-bit integer, the history is a prefix of the
    unlimited history. *)
Lemma history_limited_prefix (db : Db) (conversation_id : string) (limit : Z)
    (include_metadata : bool) :
  int64 limit = true ->
  exists (hist : list ConversationMessage) (n : nat),
    get_conversation_history Healthy db conversation_id None include_metadata
    = Return hist
    /\ get_conversation_history Healthy db conversation_id (Some limit)
                                include_metadata
       = Return (take n hist).
Proof.
  intros Hrange.
  unfold get_conversation_history, tx_bind, connect, select_history, tx_ret,
    limit_clause.
  eexists. destruct (Z.eqb_spec limit 0) as [_ | _].
  - eexists (length _). split; [reflexivity |]. now rewrite firstn_all.
  - rewrite Hrange. unfold sql_limit. destruct (limit <? 0)%Z.
    + eexists (length _). split; [reflexivity |]. now rewrite firstn_all.
    + exists (Z.to_nat limit). split; [reflexivity |]. now rewrite fmap_take.
Qed.

(** A successful [add_message] appends exactly one row, stamped [now]. *)
Lemma add_message_appends (db db' : Db) (uuid4 : string) (now : Z)
    (conversation_id role content : string) (metadata : option pyobj)
    (tokens_used : option Z) (processing_time confidence : option float) :
  add_message Healthy db uuid4 now conversation_id role content metadata
              tokens_used processing_time confidence = (Return uuid4, db') ->
  exists row : MessageRow,
    messages db' = messages db ++ [row]
    /\ m_id row = uuid4 /\ m_conversation_id row = conversation_id
    /\ m_role row = role /\ m_content row = content /\ m_timestamp row = now.
Proof.
  unfold add_message, tx_bind, connect, insert_message. simpl.
  destruct (message_exists uuid4 db); simpl; intros H; inversion H; subst.
  eexists. split; [reflexivity | repeat split].
Qed.

(** C5, as stated, fails: [m1] is appended before [m2], but [m2] carries the
    smaller [CURRENT_TIMESTAMP], and the history lists [m2] first. *)
Lemma history_follows_timestamps_not_appends :
  fst (add_message Healthy empty_db "m1" 10 "c1" "user" "first"
         None None None None) = Return "m1"
  /\ match get_conversation_history Healthy clock_set_back_db "c1" None true with
     | Return hist => map msg_id hist = ["m2"; "m1"]
                      /\ ~ before "m1" "m2" (map msg_id hist)
     | Raise _ => False
     end.
Proof.
  vm_compute. repeat split.
  intros H. inversion H as [l Hin | z l Hb]; subst.
  inversion Hb as [l Hin | z l Hb']; subst.
  - inversion Hin.
  - inversion Hb'.
Qed.

(** C5 (amended): let [m1] and then [m2] be appended to the same
    conversation, with any appends in between and afterwards, and let the
    timestamp stored with [m1] be no later than the one stored with [m2].
    Then the unlimited history is sorted by timestamp, oldest first, and
    lists [m1] before [m2]. *)
Theorem history_keeps_append_order
    (db0 db1 db2 db3 db4 : Db) (conversation_id : string)
    (id1 role1 content1 : string) (now1 : Z) (metadata1 : option pyobj)
    (tokens1 : option Z) (time1 confidence1 : option float)
    (id2 role2 content2 : string) (now2 : Z) (metadata2 : option pyobj)
    (tokens2 : option Z) (time2 confidence2 : option float)
    (between after : list MessageRow) :
  add_message Healthy db0 id1 now1 conversation_id role1 content1 metadata1
              tokens1 time1 confidence1 = (Return id1, db1) ->
  messages db2 = messages db1 ++ between ->
  add_message Healthy db2 id2 now2 conversation_id role2 content2 metadata2
              tokens2 time2 confidence2 = (Return id2, db3) ->
  messages db4 = messages db3 ++ after ->
  (now1 <= now2)%Z ->
  exists (hist : list ConversationMessage) (m1 m2 : ConversationMessage),
    get_conversation_history Healthy db4 conversation_id None true = Return hist
    /\ StronglySorted oldest_first hist
    /\ msg_id m1 = id1 /\ msg_content m1 = content1
    /\ msg_id m2 = id2 /\ msg_content m2 = content2
    /\ exists a b c, hist = a ++ m1 :: b ++ m2 :: c.
Proof.
  intros Hadd1 Hbetween Hadd2 Hafter Hclock.
  apply add_message_appends in Hadd1
    as (r1 & Hdb1 & Hid1 & Hcid1 & _ & Hcontent1 & Hts1).
  apply add_message_appends in Hadd2
    as (r2 & Hdb3 & Hid2 & Hcid2 & _ & Hcontent2 & Hts2).
  assert (Htable : before r1 r2 (messages db4)).
  { rewrite Hafter, Hdb3. apply before_app_r, before_snoc.
    rewrite Hbetween, Hdb1. set_solver. }
  assert (Hsorted : before (message_of_row true r1) (message_of_row true r2)
                      (map (message_of_row true)
                         (order_by timestamp_asc
                            (filter (fun m => m_conversation_id m = conversation_id)
                                    (messages db4))))).
  { apply before_map, order_by_stable.
    - unfold timestamp_asc. apply Z.leb_le. lia.
    - now apply before_filter. }
  eexists _, (message_of_row true r1), (message_of_row true r2).
  split; [apply history_unlimited |].
  split; [apply StronglySorted_map_messages, order_by_timestamp_sorted |].
  repeat (split; [assumption |]).
  now apply before_split.
Qed.

Lemma history_keeps_append_order_witness :
  exists (hist : list ConversationMessage) (m1 m2 : ConversationMessage),
    get_conversation_history Healthy
      {| conversations := [];
         messages := [sample_row 1 "user" "a"; sample_row 1 "assistant" "b"] |}
      "c1" None true = Return hist
    /\ StronglySorted oldest_first hist
    /\ msg_id m1 = "ma" /\ msg_content m1 = "a"
    /\ msg_id m2 = "mb" /\ msg_content m2 = "b"
    /\ exists a b c, hist = a ++ m1 :: b ++ m2 :: c.
Proof.
  exact (history_keeps_append_order
           empty_db
           {| conversations := []; messages := [sample_row 1 "user" "a"] |}
           {| conversations := []; messages := [sample_row 1 "user" "a"] |}
           {| conversations := [];
              messages := [sample_row 1 "user" "a"; sample_row 1 "assistant" "b"] |}
           {| conversations := [];
              messages := [sample_row 1 "user" "a"; sample_row 1 "assistant" "b"] |}
           "c1"
           "ma" "user" "a" 1 None None None None
           "mb" "assistant" "b" 1 None None None None
           [] []
           eq_refl eq_refl eq_refl eq_refl ltac:(lia)).
Defined.

(** ** C6: storage failures *)

(** C6, as stated, fails: with a store that cannot be read, a search that
    would find the message returns the empty list, the statistics of a
    conversation with one message are the empty dictionary, and a cleanup
    that would delete the conversation reports 0; none of the three calls
    raises. *)
Lemma storage_failure_is_swallowed :
  search_messages Healthy one_message_db "alice" "hell" 50 <> []
  /\ search_messages Failing one_message_db "alice" "hell" 50 = []
  /\ get_conversation_stats Healthy one_message_db "c1" !! "message_count"
     = Some (NInt 1)
  /\ get_conversation_stats Failing one_message_db "c1" = ∅
  /\ fst (cleanup_old_conversations Healthy one_message_db 30 8640000) = 1%Z
  /\ fst (cleanup_old_conversations Failing one_message_db 30 8640000) = 0%Z.
Proof. vm_compute. repeat split. discriminate. Qed.

(** C6 (amended): a storage failure inside [add_message] or
    [get_conversation_history] is re-raised to the caller.  Inside
    [search_messages], [get_conversation_stats] and
    [cleanup_old_conversations] it is logged and not raised: the search
    returns the empty list, the statistics the empty dictionary and the
    cleanup the count 0.  In every case the store is left as it was. *)
Theorem storage_failure_outcomes
    (db : Db) (uuid4 : string) (now : Z) (conversation_id role content : string)
    (metadata : option pyobj) (tokens_used : option Z)
    (processing_time confidence : option float)
    (limit : option Z) (include_metadata : bool)
    (user_id query : string) (search_limit days : Z) :
  add_message Failing db uuid4 now conversation_id role content metadata
              tokens_used processing_time confidence
  = (Raise OperationalError, db)
  /\ get_conversation_history Failing db conversation_id limit include_metadata
     = Raise OperationalError
  /\ search_messages Failing db user_id query search_limit = []
  /\ get_conversation_stats Failing db conversation_id = ∅
  /\ cleanup_old_conversations Failing db days now = (0%Z, db).
Proof. repeat split. Qed.

(** ** C7: consolidation into long-term storage *)





(** Conversation ids that differ only in path syntax share one long-term
    file. *)
Example memory_file_of_dotted_id :
  memory_file "c1" = "data/memory/c1_memory.json"
  /\ memory_file "./c1" = memory_file "c1".
Proof. split; reflexivity. Qed.

(** The two cases of the strength example: 2.0 * 3 > 2.0 is consolidated,
    0.5 * 2 is not. *)
Example consolidate_strength_example :
  let disk' := snd (consolidate_memory remembering_manager Healthy ∅ 9 "c1") in
  retrieve_long_term_memory Healthy disk' "c1" !! "name"
  = Some {| lt_value := PStr "Ada"; lt_strength := 6%float; lt_consolidated_at := 9 |}
  /\ retrieve_long_term_memory Healthy disk' "c1" !! "mood" = None.
Proof. vm_compute. split; reflexivity. Qed.

(** ** C8: reads of working memory and [access_count] *)

(** C8, as stated, fails: after a read with the key omitted, which returns
    the full map, the entry still has the [access_count] 1 it was created
    with. *)
Lemma whole_map_read_counts_nothing :
  let s1 := update_working_memory default_manager 0 "c1" "name" (PStr "Ada") 2%float in
  match get_working_memory s1 "c1" None with
  | (WholeMap m, s2) =>
      access_count <$> (m !! "name") = Some 1%Z
      /\ (working_memory s2 !! "c1" ≫= fun conv => access_count <$> conv !! "name")
         = Some 1%Z
  | _ => False
  end.
Proof. vm_compute. split; reflexivity. Qed.

(** C8 (amended): a read with a named, non-empty key that is present
    returns the stored value and increments the [access_count] of that key
    by one, leaving every other entry and every other conversation as it
    was; a read with the key omitted returns the conversation's full map
    and changes no [access_count]. *)
Theorem get_working_memory_counts_keyed_reads
    (self : ContextManager.t) (conversation_id : string)
    (conv : gmap string MemoryItem) :
  working_memory self !! conversation_id = Some conv ->
  (forall (key : string) (memory_item : MemoryItem),
      key ≠ "" ->
      conv !! key = Some memory_item ->
      let '(result, self') := get_working_memory self conversation_id (Some key) in
      result = OneValue (value memory_item)
      /\ working_memory self' !! conversation_id
         = Some (<[key := {| value := value memory_item;
                             timestamp := timestamp memory_item;
                             importance := importance memory_item;
                             access_count := (access_count memory_item + 1)%Z |}]>
                   conv)
      /\ (forall other : string,
             other ≠ conversation_id ->
             working_memory self' !! other = working_memory self !! other))
  /\ get_working_memory self conversation_id None = (WholeMap conv, self).
Proof.
  intros Hconv. split.
  - intros key item Hkey Hitem. unfold get_working_memory. rewrite Hconv.
    destruct key as [|c k']; [congruence |]. rewrite Hitem. simpl.
    split; [reflexivity |]. split.
    + apply lookup_insert_eq.
    + intros other Hother. now apply lookup_insert_ne.
  - unfold get_working_memory. now rewrite Hconv.
Qed.

Lemma get_working_memory_counts_keyed_reads_witness :
  (forall (key : string) (memory_item : MemoryItem),
      key ≠ "" ->
      remembered !! key = Some memory_item ->
      let '(result, self') := get_working_memory remembering_manager "c1" (Some key) in
      result = OneValue (value memory_item)
      /\ working_memory self' !! "c1"
         = Some (<[key := {| value := value memory_item;
                             timestamp := timestamp memory_item;
                             importance := importance memory_item;
                             access_count := (access_count memory_item + 1)%Z |}]>
                   remembered)
      /\ (forall other : string,
             other ≠ "c1" ->
             working_memory self' !! other = working_memory remembering_manager !! other))
  /\ get_working_memory remembering_manager "c1" None
     = (WholeMap remembered, remembering_manager).
Proof.
  exact (get_working_memory_counts_keyed_reads remembering_manager "c1" remembered
           ltac:(vm_compute; reflexivity)).
Defined.

(** A key that is the empty string is falsy, so the read returns the whole
    map and counts nothing. *)
Example empty_key_reads_whole_map :
  let s1 := update_working_memory default_manager 0 "c1" "" (PStr "Ada") 2%float in
  match get_working_memory s1 "c1" (Some "") with
  | (WholeMap m, s2) => access_count <$> (m !! "") = Some 1%Z
  | _ => False
  end.
Proof. vm_compute. reflexivity. Qed.

(** ** The prompt builder on a small input *)

(** The sections of a prompt, in order, on a small input. *)
Example build_prompt_example :
  _build_prompt (fun _ => "{}") {| system_prompt := "SYS" |} "hi"
    [{| user_message := "a"; ai_response := "b" |}]
    {| preferences := PNone; expertise_areas := ["x"; "y"] |} None None
  = join (newline +:+ newline)
      ["SYS"; "User's Expertise Areas: x, y"; "Conversation History:";
       "User: a"; "Assistant: b"; "Current Message: hi"; response_instruction].
Proof. reflexivity. Qed.

(** [attachments] does not reach the prompt. *)
Lemma build_prompt_ignores_attachments
    (json_dumps_indent2 : pyobj -> string) (self : MarkAICore) (message : string)
    (history : list HistoryEntry) (context : UserContext)
    (attachments1 attachments2 : option (list pyobj))
    (additional_context : option pyobj) :
  _build_prompt json_dumps_indent2 self message history context attachments1
                additional_context
  = _build_prompt json_dumps_indent2 self message history context attachments2
                  additional_context.
Proof. reflexivity. Qed.

(** ** C10: consolidation does not write to working memory *)

(** C10: [consolidate_memory] returns the [ContextManager] object it was
    given, whatever the conversation, the state of the memory directory and
    the clock: the working memory of every conversation (keys, values,
    importances, access counts, timestamps) is as before, and so is the
    context cache. *)
Theorem consolidate_leaves_working_memory
    (self : ContextManager.t) (fs : storage) (disk : Disk) (now : Z)
    (conversation_id : string) :
  fst (consolidate_memory self fs disk now conversation_id) = self
  /\ forall other : string,
       working_memory (fst (consolidate_memory self fs disk now conversation_id))
         !! other
       = working_memory self !! other.
Proof.
  assert (H : fst (consolidate_memory self fs disk now conversation_id) = self).
  { unfold consolidate_memory.
    destruct (working_memory self !! conversation_id) as [working_mem |];
      [| reflexivity].
    now destruct (size (omap (important now) working_mem) =? 0)%nat. }
  split; [exact H |]. intros other. now rewrite H.
Qed.

(* ===================================================================== *)
(** * Further properties of the conversation store                        *)
(* ===================================================================== *)

(** ** Sorting and limits *)

Section OrderByFacts.
Context {A : Type} (le : A -> A -> bool).

Lemma insert_by_Permutation (x : A) (l : list A) :
  insert_by le x l ≡ₚ x :: l.
Proof.
  induction l as [|y l IH]; simpl; [reflexivity |].
  destruct (le x y); [reflexivity |].
  rewrite IH. apply Permutation_swap.
Qed.

Lemma order_by_Permutation (l : list A) : order_by le l ≡ₚ l.
Proof.
  induction l as [|x l IH]; simpl; [reflexivity |].
  now rewrite insert_by_Permutation, IH.
Qed.

Lemma order_by_length (l : list A) : length (order_by le l) = length l.
Proof. now rewrite order_by_Permutation. Qed.

Hypothesis le_total : forall a b, le a b = false -> le b a = true.
Hypothesis le_trans : forall a b c, le a b = true -> le b c = true -> le a c = true.

Lemma insert_by_sorted (x : A) (l : list A) :
  StronglySorted (fun a b => le a b = true) l ->
  StronglySorted (fun a b => le a b = true) (insert_by le x l).
Proof.
  induction 1 as [|y l Hs IH Hy]; simpl.
  - constructor; constructor.
  - destruct (le x y) eqn:Hxy.
    + constructor; [now constructor |].
      constructor; [exact Hxy |].
      eapply Forall_impl; [exact Hy |]. intros z Hz. now apply le_trans with y.
    + constructor; [exact IH |].
      apply Forall_forall. intros z Hz.
      apply elem_of_insert_by in Hz as [-> | Hz].
      * now apply le_total.
      * rewrite Forall_forall in Hy. now apply Hy.
Qed.

Lemma order_by_sorted (l : list A) :
  StronglySorted (fun a b => le a b = true) (order_by le l).
Proof.
  induction l as [|x l IH]; simpl; [constructor |].
  now apply insert_by_sorted.
Qed.
End OrderByFacts.

Lemma sql_limit_prefix {A} (n : Z) (l : list A) :
  exists k : nat, sql_limit n l = take k l.
Proof.
  unfold sql_limit. destruct (n <? 0)%Z.
  - exists (length l). now rewrite firstn_all.
  - now exists (Z.to_nat n).
Qed.

Lemma sql_limit_length {A} (n : Z) (l : list A) :
  (0 <= n)%Z -> (Z.of_nat (length (sql_limit n l)) <= n)%Z.
Proof.
  intros Hn. unfold sql_limit. destruct (Z.ltb_spec n 0); [lia |].
  rewrite length_take. lia.
Qed.

Lemma elem_of_sql_limit {A} (n : Z) (l : list A) (x : A) :
  x ∈ sql_limit n l -> x ∈ l.
Proof.
  destruct (sql_limit_prefix n l) as [k ->]. apply subseteq_take.
Qed.

Lemma StronglySorted_take {A} (R : A -> A -> Prop) (k : nat) (l : list A) :
  StronglySorted R l -> StronglySorted R (take k l).
Proof.
  intros H. revert k. induction H as [|x l _ IH Hx]; intros [|k]; simpl;
    try constructor.
  - apply IH.
  - apply Forall_forall. intros y Hy. rewrite Forall_forall in Hx.
    apply Hx. now apply subseteq_take in Hy.
Qed.

Lemma StronglySorted_map {A B} (R : A -> A -> Prop) (S : B -> B -> Prop)
    (f : A -> B) (l : list A) :
  (forall a b, R a b -> S (f a) (f b)) ->
  StronglySorted R l -> StronglySorted S (map f l).
Proof.
  intros Hf. induction 1 as [|x l _ IH Hx]; simpl; constructor; [exact IH |].
  apply Forall_forall. intros y Hy.
  apply list_elem_of_fmap in Hy as (x' & -> & Hx').
  rewrite Forall_forall in Hx. apply Hf. now apply Hx.
Qed.

(** ** Appending and reading back *)

(** X1: after a successful [add_message], the unlimited history of that
    conversation holds exactly the messages it held before plus one new
    message carrying the given id, role, content and clock reading; the
    history of every other conversation reads as before. *)
Theorem append_then_read
    (db db' : Db) (uuid4 : string) (now : Z) (conversation_id role content : string)
    (metadata : option pyobj) (tokens_used : option Z)
    (processing_time confidence : option float) :
  add_message Healthy db uuid4 now conversation_id role content metadata
              tokens_used processing_time confidence = (Return uuid4, db') ->
  exists (hist hist' : list ConversationMessage) (m : ConversationMessage),
    get_conversation_history Healthy db conversation_id None true = Return hist
    /\ get_conversation_history Healthy db' conversation_id None true = Return hist'
    /\ hist' ≡ₚ m :: hist
    /\ length hist' = S (length hist)
    /\ msg_id m = uuid4 /\ msg_role m = role /\ msg_content m = content
    /\ msg_timestamp m = now
    /\ forall (other : string) (limit : option Z) (include_metadata : bool),
         other ≠ conversation_id ->
         get_conversation_history Healthy db' other limit include_metadata
         = get_conversation_history Healthy db other limit include_metadata.
Proof.
  intros Hadd.
  apply add_message_appends in Hadd
    as (row & Hdb' & Hid & Hcid & Hrole & Hcontent & Hts).
  assert (Hperm :
    map (message_of_row true)
      (order_by timestamp_asc
         (filter (fun m => m_conversation_id m = conversation_id) (messages db')))
    ≡ₚ message_of_row true row
        :: map (message_of_row true)
             (order_by timestamp_asc
                (filter (fun m => m_conversation_id m = conversation_id)
                        (messages db)))).
  { rewrite Hdb', filter_app, filter_cons_True, filter_nil by exact Hcid.
    rewrite !order_by_Permutation. rewrite fmap_app. simpl.
    now rewrite <- Permutation_cons_append. }
  eexists _, _, (message_of_row true row).
  split; [apply history_unlimited |].
  split; [apply history_unlimited |].
  split; [exact Hperm |].
  split; [now rewrite Hperm |].
  repeat (split; [assumption |]).
  intros other limit include_metadata Hother.
  unfold get_conversation_history, tx_bind, connect, select_history, tx_ret.
  rewrite Hdb', filter_app, filter_cons_False, filter_nil, app_nil_r by congruence.
  now destruct (limit_clause _ _).
Qed.

Lemma append_then_read_witness :
  exists (hist hist' : list ConversationMessage) (m : ConversationMessage),
    get_conversation_history Healthy one_message_db "c1" None true = Return hist
    /\ get_conversation_history Healthy
         (snd (add_message Healthy one_message_db "m2" 2 "c1" "assistant" "hi"
                 None None None None)) "c1" None true = Return hist'
    /\ hist' ≡ₚ m :: hist
    /\ length hist' = S (length hist)
    /\ msg_id m = "m2" /\ msg_role m = "assistant" /\ msg_content m = "hi"
    /\ msg_timestamp m = 2%Z
    /\ forall (other : string) (limit : option Z) (include_metadata : bool),
         other ≠ "c1" ->
         get_conversation_history Healthy
           (snd (add_message Healthy one_message_db "m2" 2 "c1" "assistant" "hi"
                   None None None None)) other limit include_metadata
         = get_conversation_history Healthy one_message_db other limit
                                    include_metadata.
Proof.
  exact (append_then_read one_message_db _ "m2" 2 "c1" "assistant" "hi"
           None None None None eq_refl).
Defined.

Lemma history_without_rows
    (db : Db) (conversation_id : string) (limit : option Z)
    (include_metadata : bool) :
  (forall n : Z, limit = Some n -> int64 n = true) ->
  Forall (fun m => m_conversation_id m ≠ conversation_id) (messages db) ->
  get_conversation_history Healthy db conversation_id limit include_metadata
  = Return [].
Proof.
  intros Hrange Hnone.
  unfold get_conversation_history, tx_bind, connect, select_history, tx_ret,
    limit_clause.
  assert (Hempty : filter (fun m => m_conversation_id m = conversation_id)
                          (messages db) = []).
  { induction Hnone as [|m l Hm _ IH]; [reflexivity |].
    now rewrite filter_cons_False. }
  rewrite Hempty. simpl.
  destruct limit as [n |]; [| reflexivity].
  destruct (n =? 0)%Z; [reflexivity |].
  rewrite (Hrange n eq_refl).
  unfold sql_limit. destruct (n <? 0)%Z; [reflexivity |]. now rewrite take_nil.
Qed.

(** X2: the history of a conversation id that no message row carries (an
    unknown or an empty conversation) is the empty list and not an error,
    whatever the metadata flag and for every limit that is a 64-bit
    integer; with an unreachable store the same call raises. *)
Theorem history_of_unknown_conversation
    (db : Db) (conversation_id : string) (limit : option Z)
    (include_metadata : bool) :
  (forall n : Z, limit = Some n -> int64 n = true) ->
  Forall (fun m => m_conversation_id m ≠ conversation_id) (messages db) ->
  get_conversation_history Healthy db conversation_id limit include_metadata
  = Return []
  /\ get_conversation_history Failing db conversation_id limit include_metadata
     = Raise OperationalError.
Proof.
  intros Hrange Hnone. split; [now apply history_without_rows | reflexivity].
Qed.

Lemma history_of_unknown_conversation_witness :
  get_conversation_history Healthy one_message_db "ghost" (Some 5%Z) true
  = Return []
  /\ get_conversation_history Failing one_message_db "ghost" (Some 5%Z) true
     = Raise OperationalError.
Proof.
  apply (history_of_unknown_conversation one_message_db "ghost" (Some 5%Z) true).
  - intros n [= <-]. reflexivity.
  - repeat constructor; discriminate.
Defined.

(** A limit outside the 64-bit range is refused by SQLite even when no row
    matches: the call raises. *)
Example history_limit_out_of_range :
  get_conversation_history Healthy one_message_db "ghost"
    (Some 9223372036854775808%Z) true = Raise IntegrityError.
Proof. reflexivity. Qed.

(** ** Deleting, creating and listing conversations *)

(** X3: after [delete_conversation] on a reachable store the call has
    returned [True], the history of the conversation is empty (for every
    limit that is a 64-bit integer), no listing of any user shows the
    conversation, and the history of every other conversation reads as
    before. *)
Theorem delete_cascades
    (db : Db) (conversation_id : string) :
  let '(deleted, db') := delete_conversation Healthy db conversation_id in
  deleted = true
  /\ (forall (limit : option Z) (include_metadata : bool),
        (forall n : Z, limit = Some n -> int64 n = true) ->
        get_conversation_history Healthy db' conversation_id limit include_metadata
        = Return [])
  /\ (forall (user_id : string) (limit : option Z)
             (listed : list ConversationSummary),
        get_user_conversations Healthy db' user_id limit = Return listed ->
        Forall (fun s => sum_id s ≠ conversation_id) listed)
  /\ (forall (other : string) (limit : option Z) (include_metadata : bool),
        other ≠ conversation_id ->
        get_conversation_history Healthy db' other limit include_metadata
        = get_conversation_history Healthy db other limit include_metadata).
Proof.
  simpl. split; [reflexivity |]. split; [| split].
  - intros limit include_metadata Hrange.
    apply history_without_rows; [exact Hrange |]. simpl.
    apply Forall_forall. intros m Hm. now apply list_elem_of_filter in Hm as [Hm _].
  - intros user_id limit listed Hlisted.
    unfold get_user_conversations, tx_bind, connect, select_user_conversations,
      tx_ret, limit_clause in Hlisted. simpl in Hlisted.
    apply Forall_forall. intros s Hs.
    assert (Hin : s ∈ map summary_of_row
                    (order_by updated_desc
                       (filter (fun c => c_user_id c = user_id)
                          (filter (fun c => c_id c ≠ conversation_id)
                                  (conversations db))))).
    { destruct limit as [n |]; [destruct (n =? 0)%Z; [| destruct (int64 n)] |];
        inversion Hlisted; subst; try assumption.
      apply list_elem_of_fmap in Hs as (c & -> & Hc).
      apply list_elem_of_fmap_2. now apply elem_of_sql_limit in Hc. }
    apply list_elem_of_fmap in Hin as (c & -> & Hc).
    apply elem_of_order_by, list_elem_of_filter in Hc as [_ Hc].
    now apply list_elem_of_filter in Hc as [Hc _].
  - intros other limit include_metadata Hother.
    unfold get_conversation_history, tx_bind, connect, select_history, tx_ret.
    simpl. rewrite list_filter_filter.
    assert (Hext : filter (fun m => m_conversation_id m = other
                                    /\ m_conversation_id m ≠ conversation_id)
                          (messages db)
                   = filter (fun m => m_conversation_id m = other) (messages db)).
    { apply list_filter_iff. intros m. split; [tauto | intros H; split; congruence]. }
    rewrite Hext. now destruct (limit_clause _ _).
Qed.

(** X4: [create_conversation] with an id that is not yet in the registry
    returns that id, and the conversation is then in the owner's listing
    with the given non-empty title and the clock reading as [updated_at];
    with an id that is already in the registry it raises the integrity
    error and leaves the store as it was. *)
Theorem create_then_list
    (strftime_minute : Z -> string) (db : Db) (uuid4 : string) (now : Z)
    (user_id title : string) :
  title ≠ "" ->
  (conversation_exists uuid4 db = false ->
   exists (db' : Db) (listed : list ConversationSummary),
     create_conversation strftime_minute Healthy db uuid4 now user_id (Some title)
     = (Return uuid4, db')
     /\ get_user_conversations Healthy db' user_id None = Return listed
     /\ {| sum_id := uuid4; sum_title := title; sum_created_at := now;
           sum_updated_at := now; sum_metadata := PDict [] |} ∈ listed)
  /\ (conversation_exists uuid4 db = true ->
      create_conversation strftime_minute Healthy db uuid4 now user_id (Some title)
      = (Raise IntegrityError, db)).
Proof.
  intros Htitle. destruct title as [|c t]; [congruence |].
  unfold create_conversation, tx_bind, connect, insert_conversation, tx_ret. simpl.
  split; intros Hex; rewrite Hex; [| reflexivity].
  eexists _, _. split; [reflexivity |]. split; [reflexivity |].
  apply (list_elem_of_fmap_2 summary_of_row _
           {| c_id := uuid4; c_user_id := user_id; c_title := String c t;
              c_created_at := now; c_updated_at := now; c_metadata := PDict [] |}).
  apply elem_of_order_by, list_elem_of_filter. split; [reflexivity |].
  simpl. set_solver.
Qed.

Lemma create_then_list_witness :
  (conversation_exists "c2" one_message_db = false ->
   exists (db' : Db) (listed : list ConversationSummary),
     create_conversation (fun _ => "1970-01-01 00:00") Healthy one_message_db
       "c2" 5 "alice" (Some "Plans") = (Return "c2", db')
     /\ get_user_conversations Healthy db' "alice" None = Return listed
     /\ {| sum_id := "c2"; sum_title := "Plans"; sum_created_at := 5;
           sum_updated_at := 5; sum_metadata := PDict [] |} ∈ listed)
  /\ (conversation_exists "c2" one_message_db = true ->
      create_conversation (fun _ => "1970-01-01 00:00") Healthy one_message_db
        "c2" 5 "alice" (Some "Plans") = (Raise IntegrityError, one_message_db)).
Proof.
  exact (create_then_list (fun _ => "1970-01-01 00:00") one_message_db "c2" 5
           "alice" "Plans" ltac:(discriminate)).
Defined.

Definition newest_first (a b : ConversationSummary) : Prop :=
  (sum_updated_at b <= sum_updated_at a)%Z.

Lemma listing_is_sorted_and_complete (db : Db) (user_id : string) :
  exists listed : list ConversationSummary,
    get_user_conversations Healthy db user_id None = Return listed
    /\ listed ≡ₚ map summary_of_row
                   (filter (fun c => c_user_id c = user_id) (conversations db))
    /\ StronglySorted newest_first listed.
Proof.
  eexists. split; [reflexivity |].
  split; [now rewrite order_by_Permutation |].
  apply (StronglySorted_map (fun a b => updated_desc a b = true)).
  - intros a b H. unfold newest_first. simpl. unfold updated_desc in H. lia.
  - apply order_by_sorted; unfold updated_desc; intros; lia.
Qed.

(** X5: the unlimited listing of a user holds exactly the conversations of
    that user, each once per row, ordered by [updated_at] with the most
    recently updated first; a listing with a limit that is a 64-bit
    integer is a prefix of it. *)
Theorem listing_is_users_newest_first
    (db : Db) (user_id : string) (limit : Z) :
  int64 limit = true ->
  exists (listed : list ConversationSummary) (k : nat),
    get_user_conversations Healthy db user_id None = Return listed
    /\ listed ≡ₚ map summary_of_row
                   (filter (fun c => c_user_id c = user_id) (conversations db))
    /\ StronglySorted newest_first listed
    /\ get_user_conversations Healthy db user_id (Some limit)
       = Return (take k listed).
Proof.
  assert (Hsorted : forall l : list ConversationRow,
             StronglySorted newest_first (map summary_of_row (order_by updated_desc l))).
  { intros l.
    apply (StronglySorted_map (fun a b => updated_desc a b = true)).
    - intros a b H. unfold newest_first. simpl. unfold updated_desc in H. lia.
    - apply order_by_sorted; unfold updated_desc; intros; lia. }
  intros Hrange.
  unfold get_user_conversations, tx_bind, connect, select_user_conversations, tx_ret,
    limit_clause.
  eexists. destruct (Z.eqb_spec limit 0) as [_ | _].
  - eexists (length _). split; [reflexivity |].
    split; [now rewrite order_by_Permutation |].
    split; [apply Hsorted |]. now rewrite firstn_all.
  - rewrite Hrange.
    destruct (sql_limit_prefix limit
                (order_by updated_desc
                   (filter (fun c => c_user_id c = user_id) (conversations db))))
      as [k Hk].
    exists k. split; [reflexivity |].
    split; [now rewrite order_by_Permutation |].
    split; [apply Hsorted |]. now rewrite Hk, fmap_take.
Qed.

Lemma listing_is_users_newest_first_witness :
  exists (listed : list ConversationSummary) (k : nat),
    get_user_conversations Healthy two_user_db "alice" None = Return listed
    /\ listed ≡ₚ map summary_of_row
                   (filter (fun c => c_user_id c = "alice") (conversations two_user_db))
    /\ StronglySorted newest_first listed
    /\ get_user_conversations Healthy two_user_db "alice" (Some 1%Z)
       = Return (take k listed).
Proof.
  exact (listing_is_users_newest_first two_user_db "alice" 1 eq_refl).
Defined.

(** The listing on the sample store: the conversation updated last comes
    first, the other user's conversation is not listed, and a limit of 1
    keeps the first entry. *)
Example listing_scenario :
  match get_user_conversations Healthy two_user_db "alice" None,
        get_user_conversations Healthy two_user_db "alice" (Some 1%Z) with
  | Return every, Return first =>
      map sum_id every = ["c0"; "c1"] /\ map sum_id first = ["c0"]
  | _, _ => False
  end.
Proof. vm_compute. split; reflexivity. Qed.

(** ** Retention cleanup *)

Lemma delete_each_spec (ids : list string) :
  forall db : Db,
    delete_each ids db
    = Return (tt, {| conversations := filter (fun c => c_id c ∉ ids) (conversations db);
                     messages := filter (fun m => m_conversation_id m ∉ ids)
                                        (messages db) |}).
Proof.
  induction ids as [|conv_id rest IH]; intros db.
  - simpl. unfold tx_ret. destruct db as [cs ms]. simpl. f_equal. f_equal.
    f_equal; symmetry; apply filter_all, Forall_forall; intros x _; set_solver.
  - simpl. unfold tx_bind, delete_messages_of, delete_conversation_row. simpl.
    rewrite IH. simpl. rewrite !list_filter_filter. f_equal. f_equal.
    f_equal; apply list_filter_iff; intros x; rewrite not_elem_of_cons; tauto.
Qed.

(** X6: for a number of days that is not negative and a cutoff
    [now - days] that is not before year 0, [cleanup_old_conversations] on
    a reachable store returns the number of conversations whose
    [updated_at] is before the cutoff, keeps exactly the conversations and
    the messages whose conversation id is not among theirs, in their order,
    and leaves no conversation that is older than the cutoff. *)
Theorem cleanup_removes_old_conversations (db : Db) (days now : Z) :
  (0 <= days)%Z ->
  (year_zero <= now - days * 86400)%Z ->
  let cutoff := (now - days * 86400)%Z in
  let old_ids :=
    map c_id (List.filter (fun c => (c_updated_at c <? cutoff)%Z) (conversations db)) in
  let '(count, db') := cleanup_old_conversations Healthy db days now in
  count = Z.of_nat (length old_ids)
  /\ conversations db' = filter (fun c => c_id c ∉ old_ids) (conversations db)
  /\ messages db' = filter (fun m => m_conversation_id m ∉ old_ids) (messages db)
  /\ Forall (fun c => (cutoff <= c_updated_at c)%Z) (conversations db').
Proof.
  intros Hdays Hyear cutoff old_ids.
  unfold cleanup_old_conversations, tx_bind, connect, select_old_conversations, tx_ret,
    datetime_days_ago.
  fold cutoff.
  destruct (Z.ltb_spec days 0) as [? | _]; [lia |].
  destruct (Z.ltb_spec cutoff year_zero) as [? | _]; [unfold cutoff in *; lia |].
  cbn [orb]. fold old_ids. rewrite delete_each_spec. simpl.
  repeat split.
  apply Forall_forall. intros c Hc. apply list_elem_of_filter in Hc as [Hid Hc].
  destruct (Z.ltb_spec (c_updated_at c) cutoff) as [Hold | Hrecent]; [| exact Hrecent].
  exfalso. apply Hid. unfold old_ids. apply list_elem_of_fmap_2.
  apply list_elem_of_In, filter_In. split; [now apply list_elem_of_In |].
  now apply Z.ltb_lt.
Qed.

Lemma cleanup_removes_old_conversations_witness :
  let cutoff := (86404 - 1 * 86400)%Z in
  let old_ids :=
    map c_id (List.filter (fun c => (c_updated_at c <? cutoff)%Z)
                          (conversations two_user_db)) in
  let '(count, db') := cleanup_old_conversations Healthy two_user_db 1 86404 in
  count = Z.of_nat (length old_ids)
  /\ conversations db' = filter (fun c => c_id c ∉ old_ids) (conversations two_user_db)
  /\ messages db' = filter (fun m => m_conversation_id m ∉ old_ids) (messages two_user_db)
  /\ Forall (fun c => (cutoff <= c_updated_at c)%Z) (conversations db').
Proof.
  exact (cleanup_removes_old_conversations two_user_db 1 86404
           ltac:(lia) ltac:(vm_compute; discriminate)).
Defined.

(** The scenario of the witness: one day before second 86404 is second 4;
    the two conversations last updated before it are deleted with their
    messages, the one updated at second 5 is kept. *)
Example cleanup_scenario_conversations :
  let '(count, db') := cleanup_old_conversations Healthy two_user_db 1 86404 in
  count = 2%Z /\ map c_id (conversations db') = ["c9"] /\ messages db' = [].
Proof. vm_compute. repeat split. Qed.

(** With a negative number of days the cutoff is NULL and nothing is
    deleted, however old the conversations are. *)
Example cleanup_with_negative_days :
  cleanup_old_conversations Healthy two_user_db (-30) 8640000 = (0%Z, two_user_db).
Proof. reflexivity. Qed.

(** ** Searching *)

Definition newest_message_first (a b : ConversationMessage) : Prop :=
  (msg_timestamp b <= msg_timestamp a)%Z.

(** The message row belongs to a conversation registered to the user. *)
Definition owned_by (user_id : string) (db : Db) (m : MessageRow) : bool :=
  existsb (fun c => String.eqb (c_id c) (m_conversation_id m)
                    && String.eqb (c_user_id c) user_id)
          (conversations db).

(** The string holds no NUL character. *)
Definition nul_free (s : string) : Prop := c_string s = s.

Lemma elem_of_join_user_messages (user_id : string) (db : Db) (m : MessageRow) :
  m ∈ join_user_messages user_id db
  <-> m ∈ messages db /\ owned_by user_id db m = true.
Proof.
  unfold join_user_messages, owned_by.
  rewrite list_elem_of_In, in_flat_map, existsb_exists. split.
  - intros (c & Hc & Hm).
    apply list_elem_of_In, list_elem_of_filter in Hc as [Huser Hc].
    apply list_elem_of_In, list_elem_of_filter in Hm as [Hid Hm].
    split; [exact Hm |]. exists c. split; [now apply list_elem_of_In |].
    apply andb_true_iff. split; apply String.eqb_eq; congruence.
  - intros (Hm & c & Hc & Hboth).
    apply andb_true_iff in Hboth as [Hid Huser].
    apply String.eqb_eq in Hid. apply String.eqb_eq in Huser.
    exists c. split; apply list_elem_of_In, list_elem_of_filter.
    + split; [exact Huser | now apply list_elem_of_In].
    + split; [congruence | exact Hm].
Qed.

(** What [search_messages] returns on a reachable store. *)
Lemma search_messages_healthy (db : Db) (user_id query : string) (limit : Z) :
  search_messages Healthy db user_id query limit
  = if negb (int64 limit) then []
    else if (max_like_pattern_length <? utf8_length ("%" +:+ query +:+ "%"))%Z
            && negb (length (join_user_messages user_id db) =? 0)%nat
    then []
    else map (message_of_row true)
           (sql_limit limit
              (order_by timestamp_desc
                 (filter (fun m => like ("%" +:+ query +:+ "%") (m_content m) = true)
                         (join_user_messages user_id db)))).
Proof.
  unfold search_messages, tx_bind, connect, select_search, tx_ret.
  destruct (negb (int64 limit)); [reflexivity |].
  now destruct ((max_like_pattern_length <? utf8_length ("%" +:+ query +:+ "%"))%Z
                && negb (length (join_user_messages user_id db) =? 0)%nat).
Qed.

(** X7: every message that [search_messages] returns comes from a message
    row of a conversation registered to the given user whose content
    matches the pattern [%query%] as [LIKE] reads the two (each up to its
    first NUL character); the result is ordered by timestamp, newest first,
    and has at most [limit] entries when [limit] is not negative. *)
Theorem search_results_are_sound
    (io : storage) (db : Db) (user_id query : string) (limit : Z) :
  Forall (fun m => exists row : MessageRow,
                     row ∈ messages db
                     /\ m = message_of_row true row
                     /\ owned_by user_id db row = true
                     /\ like ("%" +:+ query +:+ "%") (m_content row) = true)
         (search_messages io db user_id query limit)
  /\ StronglySorted newest_message_first (search_messages io db user_id query limit)
  /\ ((0 <= limit)%Z ->
      (Z.of_nat (length (search_messages io db user_id query limit)) <= limit)%Z).
Proof.
  assert (Hnil : Forall (fun m => exists row : MessageRow,
                           row ∈ messages db
                           /\ m = message_of_row true row
                           /\ owned_by user_id db row = true
                           /\ like ("%" +:+ query +:+ "%") (m_content row) = true) []
                 /\ StronglySorted newest_message_first []
                 /\ ((0 <= limit)%Z -> (Z.of_nat (@length ConversationMessage []) <= limit)%Z)).
  { split; [constructor | split; [constructor | simpl; lia]]. }
  destruct io; [| exact Hnil].
  rewrite search_messages_healthy.
  destruct (negb (int64 limit)); [exact Hnil |].
  destruct ((max_like_pattern_length <? utf8_length ("%" +:+ query +:+ "%"))%Z
            && negb (length (join_user_messages user_id db) =? 0)%nat);
    [exact Hnil |].
  clear Hnil. split; [| split].
  - apply Forall_forall. intros m Hm.
    apply list_elem_of_fmap in Hm as (row & -> & Hrow).
    apply elem_of_sql_limit, elem_of_order_by, list_elem_of_filter in Hrow
      as [Hlike Hjoined].
    apply elem_of_join_user_messages in Hjoined as [Hin Howned].
    exists row. repeat split; assumption.
  - destruct (sql_limit_prefix limit
                (order_by timestamp_desc
                   (filter (fun m => like ("%" +:+ query +:+ "%") (m_content m) = true)
                           (join_user_messages user_id db)))) as [k ->].
    rewrite fmap_take. apply StronglySorted_take.
    apply (StronglySorted_map (fun a b => timestamp_desc a b = true)).
    + intros a b H. unfold newest_message_first. simpl.
      unfold timestamp_desc in H. lia.
    + apply order_by_sorted; unfold timestamp_desc; intros; lia.
  - intros Hlimit. rewrite length_map. now apply sql_limit_length.
Qed.

(** A query with a NUL character is cut there: the pattern that [LIKE]
    reads for the query ["<NUL>zzz"] is [%], which every content matches. *)
Example search_query_cut_at_nul :
  map msg_content
    (search_messages Healthy one_message_db "alice" (String Ascii.zero "zzz") 50)
  = ["hello"].
Proof. vm_compute. reflexivity. Qed.

Lemma string_app_cons (c : ascii) (s t : string) :
  String c s +:+ t = String c (s +:+ t).
Proof. reflexivity. Qed.

Lemma pattern_compare_percent_unfold (pattern text : string) :
  pattern_compare (String "%" pattern) text
  = pattern_compare pattern text
    || match text with
       | EmptyString => false
       | String _ text' => pattern_compare (String "%" pattern) text'
       end.
Proof. destruct text; reflexivity. Qed.

Lemma pattern_compare_percent_all (text : string) : pattern_compare "%" text = true.
Proof.
  induction text as [|c text IH]; [reflexivity |].
  rewrite pattern_compare_percent_unfold. rewrite IH. apply orb_true_r.
Qed.

(** ASCII case folding of a whole string, as [LIKE] compares letters. *)
Fixpoint ascii_fold (s : string) : string :=
  match s with
  | EmptyString => EmptyString
  | String c s' => String (Sqlite.lower c) (ascii_fold s')
  end.

Lemma pattern_compare_folded_prefix (query : string) :
  forall found rest : string,
    ascii_fold found = ascii_fold query ->
    pattern_compare (query +:+ "%") (found +:+ rest) = true.
Proof.
  induction query as [|c query IH]; intros [|d found] rest Hfold;
    try discriminate.
  - apply pattern_compare_percent_all.
  - simpl in Hfold. injection Hfold as Hchar Hfold.
    rewrite !string_app_cons.
    destruct (Ascii.eqb_spec c "%") as [-> | Hc].
    + rewrite pattern_compare_percent_unfold. apply orb_true_iff. right.
      rewrite pattern_compare_percent_unfold, (IH found rest Hfold). reflexivity.
    + simpl. apply Ascii.eqb_neq in Hc. rewrite Hc.
      rewrite (IH found rest Hfold), Hchar, Ascii.eqb_refl, orb_true_r.
      reflexivity.
Qed.

Lemma pattern_compare_contains (query found before_ after_ : string) :
  ascii_fold found = ascii_fold query ->
  pattern_compare ("%" +:+ query +:+ "%") (before_ +:+ found +:+ after_) = true.
Proof.
  intros Hfold.
  change ("%" +:+ query +:+ "%") with (String "%" (query +:+ "%")).
  induction before_ as [|c b IH].
  - rewrite pattern_compare_percent_unfold.
    change ("" +:+ found +:+ after_) with (found +:+ after_).
    now rewrite pattern_compare_folded_prefix.
  - rewrite string_app_cons, pattern_compare_percent_unfold, IH. apply orb_true_r.
Qed.

Lemma c_string_cons (c : ascii) (s : string) :
  c_string (String c s)
  = if Ascii.eqb c Ascii.zero then EmptyString else String c (c_string s).
Proof. reflexivity. Qed.

Lemma nul_free_app (s t : string) :
  nul_free s -> nul_free t -> nul_free (s +:+ t).
Proof.
  unfold nul_free. intros Hs Ht. induction s as [|c s IH]; [exact Ht |].
  rewrite string_app_cons, c_string_cons. rewrite c_string_cons in Hs.
  destruct (Ascii.eqb c Ascii.zero); [discriminate |].
  injection Hs as Hs. now rewrite (IH Hs).
Qed.

(** On operands without NUL, [LIKE] finds every occurrence of the query,
    whatever the case of its ASCII letters. *)
Lemma like_contains (query found before_ after_ : string) :
  nul_free query ->
  nul_free (before_ +:+ found +:+ after_) ->
  ascii_fold found = ascii_fold query ->
  like ("%" +:+ query +:+ "%") (before_ +:+ found +:+ after_) = true.
Proof.
  intros Hquery Hcontent Hfold. unfold like.
  assert (Hpattern : nul_free ("%" +:+ query +:+ "%")).
  { apply (nul_free_app "%"); [reflexivity |].
    apply nul_free_app; [exact Hquery | reflexivity]. }
  rewrite Hpattern, Hcontent. now apply pattern_compare_contains.
Qed.

(** X8: the search does not depend on the case of ASCII letters and misses
    nothing within its limits.  Let neither the query nor the content of a
    message hold a NUL character, let the pattern [%query%] have at most
    50000 bytes, and let the limit be a 64-bit integer that is negative (no
    limit) or at least the number of matches.  If the message belongs to a
    conversation registered to the user and its content contains the query,
    up to the case of the letters A-Z, then [search_messages] on a
    reachable store returns it. *)
Theorem search_finds_occurrences
    (db : Db) (user_id query : string) (limit : Z) (row : MessageRow)
    (before_ found after_ : string) :
  row ∈ messages db ->
  owned_by user_id db row = true ->
  m_content row = before_ +:+ found +:+ after_ ->
  ascii_fold found = ascii_fold query ->
  nul_free query ->
  nul_free (m_content row) ->
  (utf8_length ("%" +:+ query +:+ "%") <= max_like_pattern_length)%Z ->
  int64 limit = true ->
  (limit < 0
   \/ Z.of_nat (length (search_messages Healthy db user_id query (-1))) <= limit)%Z ->
  message_of_row true row ∈ search_messages Healthy db user_id query limit.
Proof.
  intros Hrow Howned Hcontent Hfold Hquery Hnul Hlength Hrange Hlimit.
  rewrite search_messages_healthy in *.
  rewrite Hrange. change (int64 (-1)) with true in Hlimit.
  destruct (Z.ltb_spec max_like_pattern_length
              (utf8_length ("%" +:+ query +:+ "%"))) as [? | _]; [lia |].
  cbn [negb andb] in *.
  set (matches := filter (fun m => like ("%" +:+ query +:+ "%") (m_content m) = true)
                         (join_user_messages user_id db)) in *.
  apply list_elem_of_fmap_2.
  assert (Hin : row ∈ order_by timestamp_desc matches).
  { apply elem_of_order_by, list_elem_of_filter. split.
    - rewrite Hcontent. rewrite Hcontent in Hnul. now apply like_contains.
    - now apply elem_of_join_user_messages. }
  unfold sql_limit in *. destruct (Z.ltb_spec limit 0) as [_ | Hnonneg]; [exact Hin |].
  rewrite take_ge; [exact Hin |].
  destruct Hlimit as [? | Hlimit]; [lia |].
  change (-1 <? 0)%Z with true in Hlimit. cbn iota in Hlimit.
  rewrite length_map in Hlimit. lia.
Qed.

Lemma search_finds_occurrences_witness :
  message_of_row true (sample_row 1 "user" "hello")
  ∈ search_messages Healthy two_user_db "alice" "ELL" 20.
Proof.
  apply (search_finds_occurrences two_user_db "alice" "ELL" 20
           (sample_row 1 "user" "hello") "h" "ell" "o").
  - vm_compute. constructor.
  - reflexivity.
  - reflexivity.
  - reflexivity.
  - reflexivity.
  - reflexivity.
  - vm_compute. discriminate.
  - reflexivity.
  - right. vm_compute. discriminate.
Defined.

(** ** Statistics *)

(** The token counts stored with the messages of a conversation, in rowid
    order. *)
Definition tokens_of (conversation_id : string) (db : Db) : list Z :=
  omap m_tokens_used
       (filter (fun m => m_conversation_id m = conversation_id) (messages db)).

Lemma sum_Permutation (l1 l2 : list Z) :
  l1 ≡ₚ l2 -> foldr Z.add 0%Z l1 = foldr Z.add 0%Z l2.
Proof. induction 1; simpl; lia. Qed.

Lemma sum_nonnegative (v : list Z) :
  Forall (fun t => (0 <= t)%Z) v -> (0 <= foldr Z.add 0 v)%Z.
Proof. induction 1; simpl; lia. Qed.

Lemma non_null_map {A B} (f : A -> option B) (l : list A) :
  non_null (map f l) = omap f l.
Proof.
  unfold non_null. induction l as [|x l IH]; [reflexivity |].
  simpl. destruct (f x); simpl; [f_equal |]; exact IH.
Qed.

Lemma omap_tokens_of_messages (include_metadata : bool) (l : list MessageRow) :
  omap msg_tokens_used (map (message_of_row include_metadata) l)
  = omap m_tokens_used l.
Proof.
  induction l as [|x l IH]; [reflexivity |].
  simpl. destruct (m_tokens_used x); simpl; [f_equal |]; exact IH.
Qed.

(** No partial sum of non-negative counts overflows when their total fits. *)
Lemma checked_sum_in_range (v : list Z) :
  forall acc : Z,
    (0 <= acc)%Z ->
    Forall (fun t => (0 <= t)%Z) v ->
    (acc + foldr Z.add 0 v <= 9223372036854775807)%Z ->
    checked_sum acc v = Some (acc + foldr Z.add 0 v)%Z.
Proof.
  induction v as [|x v IH]; intros acc Hacc Hv Htotal; simpl.
  - f_equal. lia.
  - inversion Hv as [|? ? Hx Hv']; subst. simpl in Htotal.
    pose proof (sum_nonnegative v Hv') as Hrest.
    assert (Hfits : int64 (acc + x) = true).
    { unfold int64. apply andb_true_iff. split; apply Z.leb_le; lia. }
    rewrite Hfits, IH by (assumption || lia). f_equal. lia.
Qed.

Lemma total_tokens_in_range (l : list (option Z)) :
  Forall (fun t => (0 <= t)%Z) (non_null l) ->
  (foldr Z.add 0 (non_null l) <= 9223372036854775807)%Z ->
  exists total : option Z,
    sum_int l = Return total
    /\ or_zero (NInt <$> total) = NInt (foldr Z.add 0%Z (non_null l)).
Proof.
  intros Hv Htotal. unfold sum_int.
  destruct (non_null l) as [|x v] eqn:E.
  - exists None. split; reflexivity.
  - rewrite (checked_sum_in_range (x :: v) 0) by (assumption || lia).
    eexists. split; [reflexivity |]. simpl. f_equal.
Qed.

(** X9: let the token counts stored with the conversation be non-negative
    with a total that fits 64 bits.  Then on a reachable store the
    statistics agree with the history of the conversation:
    [message_count] is the number of messages in the unlimited history and
    [total_tokens] is the sum of the [tokens_used] of those messages that
    carry one (0 when none does, never NULL). *)
Theorem stats_agree_with_history (db : Db) (conversation_id : string) :
  Forall (fun t => (0 <= t)%Z) (tokens_of conversation_id db) ->
  (foldr Z.add 0 (tokens_of conversation_id db) <= 9223372036854775807)%Z ->
  exists hist : list ConversationMessage,
    get_conversation_history Healthy db conversation_id None true = Return hist
    /\ get_conversation_stats Healthy db conversation_id !! "message_count"
       = Some (NInt (Z.of_nat (length hist)))
    /\ get_conversation_stats Healthy db conversation_id !! "total_tokens"
       = Some (NInt (foldr Z.add 0%Z (omap msg_tokens_used hist))).
Proof.
  intros Hnonneg Hfits. unfold tokens_of in *.
  eexists. split; [apply history_unlimited |].
  unfold get_conversation_stats, tx_bind, connect, select_stats.
  cbv beta iota.
  destruct (total_tokens_in_range
              (map m_tokens_used
                 (filter (fun m => m_conversation_id m = conversation_id)
                         (messages db))))
    as (total & -> & Htotal).
  { now rewrite non_null_map. }
  { now rewrite non_null_map. }
  cbv beta iota. split.
  - rewrite lookup_insert_eq. cbn [s_message_count or_zero].
    now rewrite length_map, order_by_length.
  - rewrite lookup_insert_ne by discriminate. rewrite lookup_insert_eq.
    cbn [s_total_tokens]. rewrite Htotal, non_null_map.
    rewrite omap_tokens_of_messages. f_equal. f_equal.
    apply sum_Permutation. now rewrite order_by_Permutation.
Qed.

Lemma stats_agree_with_history_witness :
  exists hist : list ConversationMessage,
    get_conversation_history Healthy counted_db "c1" None true = Return hist
    /\ get_conversation_stats Healthy counted_db "c1" !! "message_count"
       = Some (NInt (Z.of_nat (length hist)))
    /\ get_conversation_stats Healthy counted_db "c1" !! "total_tokens"
       = Some (NInt (foldr Z.add 0%Z (omap msg_tokens_used hist))).
Proof.
  apply (stats_agree_with_history counted_db "c1").
  - vm_compute. repeat constructor; discriminate.
  - vm_compute. discriminate.
Defined.

(** When a partial sum of the stored counts leaves the 64-bit range, the
    query fails and the statistics are the empty dictionary. *)
Example stats_overflow :
  let db1 := snd (add_message Healthy one_message_db "m2" 2 "c1" "assistant" "x"
                    None (Some 4611686018427387904%Z) None None) in
  let db2 := snd (add_message Healthy db1 "m3" 3 "c1" "assistant" "y"
                    None (Some 4611686018427387904%Z) None None) in
  get_conversation_stats Healthy db2 "c1" = ∅.
Proof. vm_compute. reflexivity. Qed.

(** The end-to-end scenario: two messages, the second with 5 tokens and
    confidence 0.9. *)
Example stats_scenario :
  let db1 := snd (add_message Healthy one_message_db "m2" 2 "c1" "user"
                    "Calculate 2+2" None None None None) in
  let db2 := snd (add_message Healthy db1 "m3" 3 "c1" "assistant" "4"
                    None (Some 5%Z) None (Some 0.5%float)) in
  get_conversation_stats Healthy db2 "c1" !! "message_count" = Some (NInt 3)
  /\ get_conversation_stats Healthy db2 "c1" !! "total_tokens" = Some (NInt 5)
  /\ get_conversation_stats Healthy db2 "c1" !! "avg_confidence"
     = Some (NFloat 0.5%float).
Proof. vm_compute. repeat split. Qed.

(* ===================================================================== *)
(** * Further properties of the context manager                           *)
(* ===================================================================== *)

(** ** The assembled context is a greedy suffix of the history *)

(** X10: the context assembled from the fetched history [messages] is the
    newline-join of the renderings of its last messages, in chronological
    order: a contiguous suffix [drop j messages], never a message from the
    middle without the ones after it and never part of a message.  The
    suffix is as long as the budget allows: its characters fit a
    non-negative budget, and the message just before it would not. *)
Theorem context_is_greedy_suffix
    (self : ContextManager.t) (db : Db) (now : Z) (conversation_id : string)
    (max_tokens : option Z) (messages : list ConversationMessage) :
  get_conversation_history Healthy db conversation_id (Some 50%Z) true
  = Return messages ->
  exists j : nat,
    j <= length messages
    /\ fst (get_context_for_conversation self Healthy db now conversation_id
              max_tokens)
       = join newline (map render (drop j messages))
    /\ ((0 <= effective_budget self max_tokens)%Z ->
        (Z.of_nat (chars (map render (drop j messages)))
         <= effective_budget self max_tokens)%Z)
    /\ (forall (i : nat) (older : ConversationMessage),
           S i = j ->
           messages !! i = Some older ->
           (effective_budget self max_tokens
            < Z.of_nat (chars (map render (drop j messages)))
              + Z.of_nat (String.length (render older)))%Z).
Proof. apply context_suffix_of_fetched. Qed.

Lemma context_is_greedy_suffix_witness :
  exists j : nat,
    j <= 2
    /\ fst (get_context_for_conversation default_manager Healthy two_message_db
              0 "c1" (Some 10%Z))
       = join newline
           (map render
              (drop j [message_of_row true (sample_row 1 "user" "a");
                       message_of_row true (sample_row 2 "user" "b")]))
    /\ ((0 <= 10)%Z ->
        (Z.of_nat (chars (map render
                            (drop j [message_of_row true (sample_row 1 "user" "a");
                                     message_of_row true (sample_row 2 "user" "b")])))
         <= 10)%Z)
    /\ (forall (i : nat) (older : ConversationMessage),
           S i = j ->
           [message_of_row true (sample_row 1 "user" "a");
            message_of_row true (sample_row 2 "user" "b")] !! i = Some older ->
           (10 < Z.of_nat (chars (map render
                                    (drop j [message_of_row true (sample_row 1 "user" "a");
                                             message_of_row true (sample_row 2 "user" "b")])))
                 + Z.of_nat (String.length (render older)))%Z).
Proof.
  exact (context_is_greedy_suffix default_manager two_message_db 0 "c1"
           (Some 10%Z) _ eq_refl).
Defined.

(** ** Working memory: writes, reads and their count *)

(** [n] successive keyed reads of one entry. *)
Fixpoint read_times (n : nat) (self : ContextManager.t)
    (conversation_id key : string) : ContextManager.t :=
  match n with
  | 0 => self
  | S n' =>
      read_times n' (snd (get_working_memory self conversation_id (Some key)))
                 conversation_id key
  end.

Lemma read_times_entry (n : nat) :
  forall (self : ContextManager.t) (conversation_id key : string)
         (conv : gmap string MemoryItem) (item : MemoryItem),
    key ≠ "" ->
    working_memory self !! conversation_id = Some conv ->
    conv !! key = Some item ->
    exists conv' : gmap string MemoryItem,
      working_memory (read_times n self conversation_id key) !! conversation_id
      = Some conv'
      /\ conv' !! key
         = Some {| value := value item; timestamp := timestamp item;
                   importance := importance item;
                   access_count := (access_count item + Z.of_nat n)%Z |}.
Proof.
  induction n as [|n IH]; intros self cid key conv item Hkey Hconv Hitem.
  - exists conv. split; [exact Hconv |]. rewrite Hitem. destruct item. simpl.
    do 2 f_equal. lia.
  - simpl. unfold get_working_memory at 1. rewrite Hconv.
    destruct key as [|c k']; [congruence |]. rewrite Hitem. simpl.
    destruct (IH (set_working_memory self
                    (<[cid := <[String c k' := bump item]> conv]> (working_memory self)))
                 cid (String c k') (<[String c k' := bump item]> conv) (bump item)
                 Hkey (lookup_insert_eq _ _ _) (lookup_insert_eq _ _ _))
      as (conv' & Hconv' & Hitem').
    exists conv'. split; [exact Hconv' |]. rewrite Hitem'. simpl.
    do 2 f_equal. lia.
Qed.

(** X11: after [update_working_memory] stores a value under a non-empty
    key, any number [n] of keyed reads later the entry still holds that
    value, importance and timestamp, its [access_count] is [1 + n], and
    one more read returns the value. *)
Theorem reads_are_counted
    (self : ContextManager.t) (now : Z) (conversation_id key : string)
    (val : pyobj) (imp : float) (n : nat) :
  key ≠ "" ->
  let stored := update_working_memory self now conversation_id key val imp in
  let later := read_times n stored conversation_id key in
  (working_memory later !! conversation_id ≫= fun conv => conv !! key)
  = Some {| value := val; timestamp := now; importance := imp;
            access_count := (1 + Z.of_nat n)%Z |}
  /\ fst (get_working_memory later conversation_id (Some key)) = OneValue val.
Proof.
  intros Hkey stored later.
  destruct (read_times_entry n stored conversation_id key
              (<[key := {| value := val; timestamp := now; importance := imp;
                           access_count := 1 |}]>
                 (default ∅ (working_memory self !! conversation_id)))
              {| value := val; timestamp := now; importance := imp;
                 access_count := 1 |} Hkey
              (lookup_insert_eq _ _ _) (lookup_insert_eq _ _ _))
    as (conv' & Hconv' & Hitem').
  fold later in Hconv'. simpl in Hitem'. split.
  - rewrite Hconv'. simpl. exact Hitem'.
  - unfold get_working_memory. rewrite Hconv'.
    destruct key as [|c k']; [congruence |]. now rewrite Hitem'.
Qed.

Lemma reads_are_counted_witness :
  let stored := update_working_memory default_manager 4 "c1" "name" (PStr "Ada")
                  2%float in
  let later := read_times 3 stored "c1" "name" in
  (working_memory later !! "c1" ≫= fun conv => conv !! "name")
  = Some {| value := PStr "Ada"; timestamp := 4; importance := 2%float;
            access_count := (1 + Z.of_nat 3)%Z |}
  /\ fst (get_working_memory later "c1" (Some "name")) = OneValue (PStr "Ada").
Proof.
  exact (reads_are_counted default_manager 4 "c1" "name" (PStr "Ada") 2%float 3
           ltac:(discriminate)).
Defined.

(** X12: [update_working_memory] overwrites: whatever was stored under the
    key, and however often it had been read, the entry afterwards is the
    new value with [access_count] 1.  Every other key of the conversation
    and every other conversation keep their entries. *)
Theorem update_overwrites_and_frames
    (self : ContextManager.t) (now : Z) (conversation_id key : string)
    (val : pyobj) (imp : float) :
  let stored := update_working_memory self now conversation_id key val imp in
  (working_memory stored !! conversation_id ≫= fun conv => conv !! key)
  = Some {| value := val; timestamp := now; importance := imp; access_count := 1 |}
  /\ (forall other_key : string,
         other_key ≠ key ->
         (working_memory stored !! conversation_id ≫= fun conv => conv !! other_key)
         = (working_memory self !! conversation_id ≫= fun conv => conv !! other_key))
  /\ (forall other : string,
         other ≠ conversation_id ->
         working_memory stored !! other = working_memory self !! other)
  /\ context_cache stored = context_cache self.
Proof.
  intros stored. unfold stored, update_working_memory. simpl.
  rewrite lookup_insert_eq. simpl. split; [apply lookup_insert_eq |].
  split; [| split; [| reflexivity]].
  - intros other_key Hother. rewrite lookup_insert_ne by congruence.
    destruct (working_memory self !! conversation_id); [reflexivity |].
    simpl. apply lookup_empty.
  - intros other Hother. now apply lookup_insert_ne.
Qed.

(** A read of a conversation that has no working memory, or of a key that
    the conversation does not hold, returns [None] and changes nothing. *)
Lemma read_of_missing_entry
    (self : ContextManager.t) (conversation_id : string) (key : option string) :
  working_memory self !! conversation_id = None
  \/ (exists (conv : gmap string MemoryItem) (k : string),
         working_memory self !! conversation_id = Some conv
         /\ key = Some k /\ k ≠ "" /\ conv !! k = None) ->
  get_working_memory self conversation_id key = (Nothing, self).
Proof.
  intros [Hnone | (conv & k & Hconv & -> & Hk & Hmiss)];
    unfold get_working_memory.
  - now rewrite Hnone.
  - rewrite Hconv. destruct k as [|c k']; [congruence |]. now rewrite Hmiss.
Qed.

Lemma read_of_missing_entry_witness :
  get_working_memory remembering_manager "c1" (Some "age")
  = (Nothing, remembering_manager).
Proof.
  apply (read_of_missing_entry remembering_manager "c1" (Some "age")).
  right. exists remembered, "age".
  split; [vm_compute; reflexivity |]. split; [reflexivity |].
  split; [discriminate | vm_compute; reflexivity].
Defined.

(** ** Consolidation composed with writes and reads *)





(** ** Sentences, key points and summaries *)

Lemma join_cons_head (sep : string) (c : ascii) (p : string) (ps : list string) :
  join sep (String c p :: ps) = String c (join sep (p :: ps)).
Proof. destruct ps; reflexivity. Qed.

Lemma split_dot_space_step (c d : ascii) (rest : string) :
  PyStr.split_dot_space (String c (String d rest))
  = if Ascii.eqb c "." && Ascii.eqb d " "
    then let '(p, ps) := PyStr.split_dot_space rest in (EmptyString, p :: ps)
    else let '(p, ps) := PyStr.split_dot_space (String d rest) in (String c p, ps).
Proof. reflexivity. Qed.

Lemma split_dot_space_join (n : nat) :
  forall s : string,
    String.length s <= n ->
    join ". " (PyStr.split_sentences s) = s.
Proof.
  unfold PyStr.split_sentences.
  induction n as [|n IH]; intros s Hlen.
  - destruct s; [reflexivity | simpl in Hlen; lia].
  - destruct s as [|c [|d rest']]; [reflexivity | reflexivity |].
    simpl in Hlen. rewrite split_dot_space_step.
    assert (Hstep : String.length (String d rest') <= n) by (simpl; lia).
    assert (Hskip : String.length rest' <= n) by lia.
    pose proof (IH (String d rest') Hstep) as IHstep.
    pose proof (IH rest' Hskip) as IHskip.
    destruct (Ascii.eqb_spec c ".") as [-> | Hc];
      [destruct (Ascii.eqb_spec d " ") as [-> | Hd] |]; cbn [andb]; cbv beta iota.
    + destruct (PyStr.split_dot_space rest') as [q qs].
      change (join ". " ("" :: q :: qs)) with (". " +:+ join ". " (q :: qs)).
      now rewrite IHskip.
    + destruct (PyStr.split_dot_space (String d rest')) as [p ps].
      rewrite join_cons_head. now rewrite IHstep.
    + destruct (PyStr.split_dot_space (String d rest')) as [p ps].
      rewrite join_cons_head. now rewrite IHstep.
Qed.

(** Joining the sentences of a text with ['. '] gives the text back. *)
Lemma split_then_join (text : string) :
  join ". " (PyStr.split_sentences text) = text.
Proof. now apply (split_dot_space_join (String.length text)). Qed.

Lemma chars_elem (p : string) (parts : list string) :
  p ∈ parts -> String.length p <= chars parts.
Proof.
  induction 1 as [p l | p q l _ IH]; simpl; lia.
Qed.

Lemma sentence_not_longer (text sentence : string) :
  sentence ∈ PyStr.split_sentences text ->
  String.length sentence <= String.length text.
Proof.
  intros Hin. apply chars_elem in Hin.
  pose proof (split_then_join text) as Hjoin.
  apply (f_equal String.length) in Hjoin. rewrite join_length in Hjoin.
  change (String.length ". ") with 2 in Hjoin. lia.
Qed.

Lemma lstrip_length (s : string) : String.length (PyStr.lstrip s) <= String.length s.
Proof.
  induction s as [|c s IH]; simpl; [lia |].
  destruct (PyStr.isspace c); simpl; lia.
Qed.

Lemma rstrip_length (s : string) : String.length (PyStr.rstrip s) <= String.length s.
Proof.
  induction s as [|c s IH]; simpl; [lia |].
  destruct (PyStr.rstrip s); [destruct (PyStr.isspace c) |]; simpl in *; lia.
Qed.

Lemma strip_length (s : string) : String.length (PyStr.strip s) <= String.length s.
Proof.
  unfold PyStr.strip. pose proof (rstrip_length (PyStr.lstrip s)).
  pose proof (lstrip_length s). lia.
Qed.

(** X15: [extract_key_points] returns at most five key points; each is a
    sentence of the text with the surrounding whitespace removed, longer
    than 20 characters and mentioning one of the keywords; a text of at
    most 20 characters has no key point. *)
Theorem key_points_are_bounded (text : string) :
  length (extract_key_points text) <= 5
  /\ Forall (fun point =>
               20 < String.length point
               /\ exists sentence : string,
                    sentence ∈ PyStr.split_sentences text
                    /\ point = PyStr.strip sentence
                    /\ mentions key_point_words sentence = true)
            (extract_key_points text)
  /\ (String.length text <= 20 -> extract_key_points text = []).
Proof.
  unfold extract_key_points. split; [| split].
  - rewrite length_take. lia.
  - apply Forall_forall. intros point Hpoint.
    apply subseteq_take, list_elem_of_fmap in Hpoint as (sentence & -> & Hs).
    apply list_elem_of_In, filter_In in Hs as [Hin Hok].
    apply andb_true_iff in Hok as [Hlong Hword].
    apply Nat.ltb_lt in Hlong. split; [exact Hlong |].
    exists sentence. repeat split; [now apply list_elem_of_In | exact Hword].
  - intros Hshort.
    assert (Hnone : List.filter
                      (fun sentence =>
                         Nat.ltb 20 (String.length (PyStr.strip sentence))
                         && mentions key_point_words sentence)
                      (PyStr.split_sentences text) = []).
    { assert (Hall : forall s, s ∈ PyStr.split_sentences text ->
                               Nat.ltb 20 (String.length (PyStr.strip s)) = false).
      { intros s Hs. apply Nat.ltb_ge.
        pose proof (sentence_not_longer text s Hs). pose proof (strip_length s). lia. }
      induction (PyStr.split_sentences text) as [|s l IH]; [reflexivity |].
      simpl. rewrite (Hall s) by set_solver. simpl. apply IH.
      intros s' Hs'. apply Hall. set_solver. }
    now rewrite Hnone.
Qed.






(** ** Cleanup of old context *)

(** X17: let [days] be at most 999999999 either way and the cutoff
    [now - days] a date between [datetime.min] and [datetime.max].  After
    [cleanup_old_context], working memory holds exactly the items it held
    before whose timestamp is not before the cutoff, each unchanged, and no
    conversation is left with an empty working memory; the context cache
    holds exactly its entries that are not before the cutoff. *)
Theorem cleanup_keeps_exactly_recent_context
    (self : ContextManager.t) (now days : Z) :
  (Z.abs days <= 999999999)%Z ->
  (datetime_min <= now - days * day <= datetime_max)%Z ->
  let cutoff := (now - days * day)%Z in
  let cleaned := cleanup_old_context self now days in
  (forall (conversation_id key : string) (item : MemoryItem),
      (working_memory cleaned !! conversation_id ≫= fun conv => conv !! key)
      = Some item
      <-> (working_memory self !! conversation_id ≫= fun conv => conv !! key)
          = Some item
          /\ (cutoff <= timestamp item)%Z)
  /\ (forall (conversation_id : string) (conv : gmap string MemoryItem),
         working_memory cleaned !! conversation_id = Some conv -> conv ≠ ∅)
  /\ (forall (conversation_id : string) (entry : CachedContext),
         context_cache cleaned !! conversation_id = Some entry
         <-> context_cache self !! conversation_id = Some entry
             /\ (cutoff <= cached_at entry)%Z).
Proof.
  intros Hdays [Hmin Hmax] cutoff cleaned.
  unfold cleaned, cleanup_old_context, days_before.
  apply Z.leb_le in Hdays, Hmin, Hmax. rewrite Hdays, Hmin, Hmax.
  cbn [andb]. simpl. fold cutoff. split; [| split].
  - intros cid key item. rewrite lookup_omap.
    destruct (working_memory self !! cid) as [conv |]; simpl;
      [| split; [discriminate | intros [? _]; discriminate]].
    destruct (Nat.eqb_spec
                (size (filter (fun kv => ~ (timestamp kv.2 < cutoff)%Z) conv)) 0)
      as [Hempty | Hnonempty]; simpl.
    + apply map_size_empty_iff in Hempty. split; [discriminate |].
      intros [Hitem Hrecent]. exfalso.
      assert (Hin : filter (fun kv => ~ (timestamp kv.2 < cutoff)%Z) conv !! key
                    = Some item).
      { apply map_lookup_filter_Some. split; [exact Hitem | simpl; lia]. }
      rewrite Hempty in Hin. now rewrite lookup_empty in Hin.
    + rewrite map_lookup_filter_Some. simpl. split; intros [? ?]; split; (assumption || lia).
  - intros cid conv. rewrite lookup_omap.
    destruct (working_memory self !! cid) as [conv0 |]; simpl; [| discriminate].
    destruct (Nat.eqb_spec
                (size (filter (fun kv => ~ (timestamp kv.2 < cutoff)%Z) conv0)) 0)
      as [Hempty | Hnonempty]; simpl; [discriminate |].
    intros [= <-] Hnil. apply Hnonempty. now rewrite Hnil, map_size_empty.
  - intros cid entry. rewrite map_lookup_filter_Some. simpl.
    split; intros [? ?]; split; (assumption || lia).
Qed.

Lemma cleanup_keeps_exactly_recent_context_witness :
  let cutoff := (700000000000 - 7 * day)%Z in
  let cleaned := cleanup_old_context aged_manager 700000000000 7 in
  (forall (conversation_id key : string) (item : MemoryItem),
      (working_memory cleaned !! conversation_id ≫= fun conv => conv !! key)
      = Some item
      <-> (working_memory aged_manager !! conversation_id ≫= fun conv => conv !! key)
          = Some item
          /\ (cutoff <= timestamp item)%Z)
  /\ (forall (conversation_id : string) (conv : gmap string MemoryItem),
         working_memory cleaned !! conversation_id = Some conv -> conv ≠ ∅)
  /\ (forall (conversation_id : string) (entry : CachedContext),
         context_cache cleaned !! conversation_id = Some entry
         <-> context_cache aged_manager !! conversation_id = Some entry
             /\ (cutoff <= cached_at entry)%Z).
Proof.
  apply (cleanup_keeps_exactly_recent_context aged_manager 700000000000 7).
  - vm_compute. discriminate.
  - split; vm_compute; discriminate.
Defined.

(** The scenario of the witness: of two items stored at seconds 0 and
    650000, a cleanup at second 700000 that keeps 7 days removes the
    first; and a cleanup whose cutoff would lie after [datetime.max]
    removes nothing. *)
Example cleanup_scenario :
  (working_memory (cleanup_old_context aged_manager 700000000000 7) !! "c1"
     ≫= fun conv => timestamp <$> conv !! "name") = None
  /\ (working_memory (cleanup_old_context aged_manager 700000000000 7) !! "c1"
        ≫= fun conv => timestamp <$> conv !! "mood") = Some 650000000000%Z
  /\ cleanup_old_context aged_manager 700000000000 (-4000000) = aged_manager.
Proof. vm_compute. repeat split. Qed.

(* ===================================================================== *)
(** * Properties of the configuration and of the prompt builder           *)
(* ===================================================================== *)

(** ** Dotted keys *)

Lemma dict_get_set (k : string) (v : pyobj) (d : list (string * pyobj)) :
  Config.dict_get k (Config.dict_set k v d) = Some v.
Proof.
  induction d as [|[k' v'] d IH]; simpl.
  - now rewrite String.eqb_refl.
  - destruct (String.eqb_spec k' k) as [-> | Hne]; simpl.
    + now rewrite String.eqb_refl.
    + apply String.eqb_neq in Hne. now rewrite Hne.
Qed.

Lemma assign_then_descend (keys : list string) (last_key : string)
    (value default : pyobj) :
  forall config config' : pyobj,
    Config.assign keys last_key value config = Some config' ->
    Config.descend (keys ++ [last_key]) config' default = value.
Proof.
  induction keys as [|k rest IH]; intros config config' H;
    destruct config; try discriminate; simpl in H.
  - injection H as <-. simpl. now rewrite dict_get_set.
  - destruct (Config.assign rest last_key value
                (match Config.dict_get k d with Some c => c | None => PDict [] end))
      as [child' |] eqn:Hchild; [| discriminate].
    injection H as <-. simpl. rewrite dict_get_set. now apply (IH _ _ Hchild).
Qed.

Lemma assign_fresh (keys : list string) (last_key : string) (value : pyobj) :
  exists config' : pyobj,
    Config.assign keys last_key value (PDict []) = Some config'.
Proof.
  induction keys as [|k rest [child' IH]]; simpl; [eauto |].
  rewrite IH. eauto.
Qed.

Lemma assign_fails_descend (keys : list string) (last_key : string)
    (value default : pyobj) :
  forall config : pyobj,
    Config.assign keys last_key value config = None ->
    Config.descend (keys ++ [last_key]) config default = default.
Proof.
  induction keys as [|k rest IH]; intros config H;
    destruct config; try reflexivity; simpl in H.
  - discriminate.
  - simpl. destruct (Config.dict_get k d) as [c |] eqn:Hget.
    + destruct (Config.assign rest last_key value c) eqn:Hc; [discriminate |].
      now apply IH.
    + reflexivity.
Qed.

Lemma split_key_parts (key : string) :
  Config.split_key key
  = removelast (Config.split_key key) ++ [List.last (Config.split_key key) EmptyString].
Proof.
  apply app_removelast_last. unfold Config.split_key.
  now destruct (Config.split_dots key).
Qed.

(** X18: a value written with [Config.set] under a dotted key is what
    [Config.get] returns for that key afterwards, whatever default is
    passed; and when [set] raises [TypeError] instead (the path runs into
    a value that is not a dictionary), [get] returns the default for that
    key. *)
Theorem config_set_then_get
    (config_data : pyobj) (key : string) (value default : pyobj) :
  match Config.set config_data key value with
  | Some config_data' => Config.get config_data' key default = value
  | None => Config.get config_data key default = default
  end.
Proof.
  unfold Config.set, Config.get.
  destruct (Config.assign (removelast (Config.split_key key))
              (List.last (Config.split_key key) EmptyString) value config_data)
    as [config_data' |] eqn:H; rewrite (split_key_parts key).
  - now apply (assign_then_descend _ _ _ _ config_data).
  - now apply assign_fails_descend with value.
Qed.

(** A path that is absent from the configuration never makes [set] raise:
    the missing dictionaries are created. *)
Example config_set_creates_sections :
  Config.set (PDict []) "memory.max_context_length" (PInt 8000)
  = Some (PDict [("memory", PDict [("max_context_length", PInt 8000)])])
  /\ Config.set (PDict [("memory", PInt 1)]) "memory.max_context_length" (PInt 8000)
     = None.
Proof. split; reflexivity. Qed.

(** ** The prompt *)

Lemma last10_length {A} (l : list A) : length (last10 l) <= 10.
Proof. unfold last10. rewrite length_drop. lia. Qed.

Lemma last10_idempotent {A} (l : list A) : last10 (last10 l) = last10 l.
Proof.
  unfold last10 at 1. pose proof (last10_length l).
  replace (length (last10 l) - 10) with 0 by lia. reflexivity.
Qed.

Lemma last10_nonempty {A} (l : list A) : l ≠ [] -> last10 l ≠ [].
Proof.
  intros Hl Hnil. apply (f_equal length) in Hnil. unfold last10 in Hnil.
  rewrite length_drop in Hnil. destruct l; [congruence |]. simpl in Hnil. lia.
Qed.

(** X19: only the last ten entries of the history reach the prompt:
    building the prompt from a history and from its last ten entries gives
    the same string. *)
Theorem prompt_uses_last_ten_entries
    (json_dumps_indent2 : pyobj -> string) (self : MarkAICore) (message : string)
    (history : list HistoryEntry) (context : UserContext)
    (attachments : option (list pyobj)) (additional_context : option pyobj) :
  _build_prompt json_dumps_indent2 self message history context attachments
                additional_context
  = _build_prompt json_dumps_indent2 self message (last10 history) context
                  attachments additional_context.
Proof.
  unfold _build_prompt.
  destruct history as [|entry history]; [reflexivity |].
  pose proof (last10_nonempty (entry :: history) ltac:(discriminate)) as Hne.
  destruct (last10 (entry :: history)) as [|e l] eqn:Hlast; [congruence |].
  rewrite <- Hlast, last10_idempotent. reflexivity.
Qed.

(** X20: every prompt opens with the system prompt and closes with the
    current message followed by the response instruction; between them
    there are at most 24 sections (preferences, expertise, the history
    heading with at most twenty lines, additional context), however long
    the history is. *)
Theorem prompt_frame
    (json_dumps_indent2 : pyobj -> string) (self : MarkAICore) (message : string)
    (history : list HistoryEntry) (context : UserContext)
    (attachments : option (list pyobj)) (additional_context : option pyobj) :
  exists middle : list string,
    _build_prompt json_dumps_indent2 self message history context attachments
                  additional_context
    = join (newline +:+ newline)
        (system_prompt self
           :: middle ++ ["Current Message: " +:+ message; response_instruction])
    /\ length middle <= 24.
Proof.
  unfold _build_prompt.
  set (prefs := if truthy (preferences context)
                then ["User Preferences: " +:+ json_dumps_indent2 (preferences context)]
                else []).
  set (areas := match expertise_areas context with
                | [] => []
                | a => ["User's Expertise Areas: " +:+ join ", " a]
                end).
  set (hist := match history with
               | [] => []
               | _ => "Conversation History:"
                      :: flat_map (fun entry => ["User: " +:+ user_message entry;
                                                 "Assistant: " +:+ ai_response entry])
                                  (last10 history)
               end).
  set (extra := match additional_context with
                | Some e => if truthy e
                            then ["Additional Context: " +:+ json_dumps_indent2 e]
                            else []
                | None => []
                end).
  exists (prefs ++ areas ++ hist ++ extra). split.
  - unfold prefs, areas, hist, extra.
    destruct (truthy (preferences context));
      destruct (expertise_areas context);
      destruct history;
      destruct additional_context as [e |]; try destruct (truthy e);
      simpl; rewrite <- ?app_assoc; simpl; rewrite ?app_nil_r;
      rewrite <- ?app_assoc; reflexivity.
  - rewrite !length_app.
    assert (length prefs <= 1) by (unfold prefs; destruct (truthy _); simpl; lia).
    assert (length areas <= 1)
      by (unfold areas; destruct (expertise_areas context); simpl; lia).
    assert (length extra <= 1)
      by (unfold extra; destruct additional_context as [e |];
          [destruct (truthy e) |]; simpl; lia).
    assert (length hist <= 21).
    { unfold hist. destruct history as [|entry rest]; [simpl; lia |].
      pose proof (last10_length (entry :: rest)) as Hlen.
      simpl length. revert Hlen. generalize (last10 (entry :: rest)).
      intros l Hl. assert (length (flat_map
                             (fun entry0 => ["User: " +:+ user_message entry0;
                                             "Assistant: " +:+ ai_response entry0]) l)
                           = 2 * length l).
      { clear. induction l as [|x l IH]; simpl; [reflexivity |]. rewrite IH. lia. }
      lia. }
    lia.
Qed.

(* ===================================================================== *)
(** * Appends: failure and recency                                        *)
(* ===================================================================== *)



Lemma sorted_head_is_maximum (listed : list ConversationSummary)
    (s : ConversationSummary) :
  StronglySorted newest_first listed ->
  s ∈ listed ->
  exists (first : ConversationSummary) (rest : list ConversationSummary),
    listed = first :: rest /\ (sum_updated_at s <= sum_updated_at first)%Z.
Proof.
  intros Hsorted Hin. destruct Hsorted as [|first rest _ Hfirst]; [inversion Hin |].
  exists first, rest. split; [reflexivity |].
  apply elem_of_cons in Hin as [-> | Hin]; [lia |].
  rewrite Forall_forall in Hfirst. exact (Hfirst s Hin).
Qed.

(** X22: an append moves its conversation to the front of the owner's
    listing.  If the conversation is registered to the user and every
    other conversation was last updated strictly before the clock reading
    of the append, then after a successful [add_message] the unlimited
    listing starts with that conversation, stamped with that reading. *)
Theorem append_moves_conversation_to_front
    (db db' : Db) (uuid4 : string) (now : Z)
    (conversation_id role content user_id : string) (metadata : option pyobj)
    (tokens_used : option Z) (processing_time confidence : option float)
    (row : ConversationRow) :
  add_message Healthy db uuid4 now conversation_id role content metadata
              tokens_used processing_time confidence = (Return uuid4, db') ->
  row ∈ conversations db ->
  c_id row = conversation_id ->
  c_user_id row = user_id ->
  Forall (fun c => c_id c ≠ conversation_id -> (c_updated_at c < now)%Z)
         (conversations db) ->
  exists (first : ConversationSummary) (rest : list ConversationSummary),
    get_user_conversations Healthy db' user_id None = Return (first :: rest)
    /\ sum_id first = conversation_id
    /\ sum_updated_at first = now.
Proof.
  intros Hadd Hrow Hid Huser Hothers.
  assert (Hconvs : conversations db'
                   = map (fun c => if String.eqb (c_id c) conversation_id
                                   then set_updated_at now c else c)
                         (conversations db)).
  { revert Hadd. unfold add_message, tx_bind, connect, insert_message.
    simpl. destruct (message_exists uuid4 db); simpl; intros [= <-]; reflexivity. }
  destruct (listing_is_sorted_and_complete db' user_id)
    as (listed & Hlisted & Hperm & Hsorted).
  assert (Htouched : summary_of_row (set_updated_at now row) ∈ listed).
  { rewrite Hperm. apply list_elem_of_fmap_2, list_elem_of_filter.
    split; [exact Huser |]. rewrite Hconvs.
    apply (list_elem_of_fmap_2' _ _ row); [exact Hrow |].
    apply String.eqb_eq in Hid. now rewrite Hid. }
  destruct (sorted_head_is_maximum listed _ Hsorted Htouched)
    as (first & rest & -> & Hmax).
  simpl in Hmax. exists first, rest. split; [exact Hlisted |].
  assert (Hfirst : first ∈ first :: rest) by apply list_elem_of_here.
  rewrite Hperm in Hfirst.
  apply list_elem_of_fmap in Hfirst as (c' & -> & Hc').
  apply list_elem_of_filter in Hc' as [_ Hc']. rewrite Hconvs in Hc'.
  apply list_elem_of_fmap in Hc' as (c & -> & Hc).
  rewrite Forall_forall in Hothers. specialize (Hothers c Hc).
  destruct (String.eqb_spec (c_id c) conversation_id) as [Heq | Hne].
  - split; [exact Heq | reflexivity].
  - simpl in Hmax. specialize (Hothers Hne). lia.
Qed.

Lemma append_moves_conversation_to_front_witness :
  exists (first : ConversationSummary) (rest : list ConversationSummary),
    get_user_conversations Healthy
      (snd (add_message Healthy two_user_db "m2" 7 "c1" "user" "again"
              None None None None)) "alice" None = Return (first :: rest)
    /\ sum_id first = "c1"
    /\ sum_updated_at first = 7%Z.
Proof.
  apply (append_moves_conversation_to_front two_user_db _ "m2" 7 "c1" "user"
           "again" "alice" None None None None sample_conversation eq_refl).
  - vm_compute. apply list_elem_of_further, list_elem_of_here.
  - reflexivity.
  - reflexivity.
  - repeat constructor; intros _; vm_compute; reflexivity.
Defined.

(** The scenario of the witness: before the append the listing of
    ["alice"] shows ["c0"] first, after it ["c1"]. *)
Example append_reorders_listing :
  match get_user_conversations Healthy two_user_db "alice" None,
        get_user_conversations Healthy
          (snd (add_message Healthy two_user_db "m2" 7 "c1" "user" "again"
                  None None None None)) "alice" None with
  | Return earlier, Return later =>
      map sum_id earlier = ["c0"; "c1"] /\ map sum_id later = ["c1"; "c0"]
  | _, _ => False
  end.
Proof. vm_compute. split; reflexivity. Qed.

(* ===================================================================== *)
(** * The context and long conversations                                  *)
(* ===================================================================== *)



